(** * browser/web-view.js: the web-view state record, its transitions,
      the thumbnail request and the rendering order of the deck.

    The development follows the source file top to bottom:
    - [Js]: the JavaScript values the module manipulates (IEEE-754 binary64
      numbers, strings, booleans, [undefined], [null]) and thrown errors;
    - [Typed]: the field types of the typed-immutable record library
      ([String], [Number], [Boolean], [Maybe], [Any]) with their defaults;
    - [WebView]: the record and the state transitions attached to it;
    - [Promise], [Thumbnail]: promises read over a run of the event loop and
      [requestThumbnail];
    - [WebViewBox]: the deck of web views and the order it renders them in. *)

From Stdlib Require Import ZArith List String Ascii Bool Lia.
From Stdlib Require Import Sorting.Sorted Sorting.Permutation.
From Stdlib Require Import Floats.SpecFloat.
Import ListNotations.
Open Scope string_scope.
Open Scope list_scope.

(** ** JavaScript values *)

Module Js.

(** A JavaScript number is an IEEE-754 binary64 value. *)
Definition Number : Type := spec_float.

Definition prec : Z := 53.
Definition emax : Z := 1024.

Definition of_Z (z : Z) : Number := binary_normalize prec emax z 0 false.
Definition add : Number -> Number -> Number := SFadd prec emax.
Definition sub : Number -> Number -> Number := SFsub prec emax.
Definition div : Number -> Number -> Number := SFdiv prec emax.
Definition ltb : Number -> Number -> bool := SFltb.
Definition leb : Number -> Number -> bool := SFleb.

Definition is_nan (x : Number) : bool :=
  match x with S754_nan => true | _ => false end.

(** [Math.min] and [Math.max] of two arguments: NaN if an argument is NaN,
    and -0 is smaller than +0. *)
Definition Math_min (x y : Number) : Number :=
  match x, y with
  | S754_nan, _ | _, S754_nan => S754_nan
  | S754_zero sx, S754_zero sy => S754_zero (sx || sy)
  | _, _ => if ltb y x then y else x
  end.

Definition Math_max (x y : Number) : Number :=
  match x, y with
  | S754_nan, _ | _, S754_nan => S754_nan
  | S754_zero sx, S754_zero sy => S754_zero (sx && sy)
  | _, _ => if ltb x y then y else x
  end.

#[local] Unset Elimination Schemes.
Inductive Value : Type :=
| Undefined
| Null
| Bool (b : bool)
| Num (n : Number)
| Str (s : string)
| Obj (entries : list (string * Value)).
#[local] Set Elimination Schemes.

(** ToBoolean, as used by [!x] and [x ? a : b]. *)
Definition truthy (v : Value) : bool :=
  match v with
  | Undefined | Null => false
  | Bool b => b
  | Num (S754_zero _) | Num S754_nan => false
  | Num _ => true
  | Str s => negb (String.eqb s "")
  | Obj _ => true
  end.

(** A computation either returns or throws a [TypeError]. *)
Inductive Result (A : Type) : Type :=
| Ok (a : A)
| Throw (message : string).
Arguments Ok {A} a.
Arguments Throw {A} message.

Definition bind {A B} (r : Result A) (k : A -> Result B) : Result B :=
  match r with
  | Ok a => k a
  | Throw m => Throw m
  end.

Definition map {A B} (f : A -> B) (r : Result A) : Result B :=
  bind r (fun a => Ok (f a)).

End Js.

Notation "x <- r ;; k" := (Js.bind r (fun x => k))
  (at level 61, r at next level, right associativity).

(** ** typed-immutable field types

    A field type reads a value: it returns the value stored in the record or
    a [TypeError]. A type built with a default ([String('')], [Number(1)],
    [Boolean(false)]) reads [undefined] as that default; [Maybe(t)] reads
    [undefined] and [null] as [null]; [Any] stores what it is given. *)

Module Typed.
Import Js.

Record t (A : Type) : Type := { read : Value -> Result A }.
Arguments read {A} _ _.

Definition withDefault (default : option Value) (value : Value) : Value :=
  match value, default with
  | Undefined, Some d => d
  | _, _ => value
  end.

Definition String (default : option string) : t string :=
  {| read value :=
       match withDefault (option_map Str default) value with
       | Str s => Ok s
       | _ => Throw "is not a string"
       end |}.

Definition Number (default : option Js.Number) : t Js.Number :=
  {| read value :=
       match withDefault (option_map Num default) value with
       | Num n => Ok n
       | _ => Throw "is not a number"
       end |}.

Definition Boolean (default : option bool) : t bool :=
  {| read value :=
       match withDefault (option_map Bool default) value with
       | Bool b => Ok b
       | _ => Throw "is not a boolean"
       end |}.

Definition Maybe {A} (type : t A) : t (option A) :=
  {| read value :=
       match value with
       | Undefined | Null => Ok None
       | _ => Js.map Some (read type value)
       end |}.

Definition Any : t Value := {| read value := Ok value |}.

End Typed.

(** ** The web-view record *)

Module WebView.
Import Js.

(** The record holds a value of the declared type in every field. *)
Record WebView : Type := {
  id : string;
  userInput : string;
  zoom : Js.Number;
  readyState : option string;
  isLoading : bool;
  isConnecting : bool;
  startLoadingTime : Js.Number;
  connectedTime : Js.Number;
  endLoadingTime : Js.Number;
  isFocused : bool;
  isActive : bool;
  isSelected : bool;
  isPinned : bool;
  uri : option string;
  title : option string;
  icons : Value;
  meta : Value;
  backgroundColor : option string;
  foregroundColor : option string;
  isDark : bool;
  securityState : string;
  securityExtendedValidation : bool;
  canGoBack : bool;
  canGoForward : bool;
  contentOverflows : bool;
  thumbnail : option string
}.

(** The declaration [Record({...})]: the type of every field, in the order
    of the source, with the default it falls back to. *)
Module Type_.
Import Typed.
Definition id : Typed.t (string) := String None.
Definition userInput : Typed.t (string) := String (Some "").
Definition zoom : Typed.t (Js.Number) := Number (Some (Js.of_Z 1)).
Definition readyState : Typed.t (option string) := Maybe (String None).
Definition isLoading : Typed.t (bool) := Boolean (Some false).
Definition isConnecting : Typed.t (bool) := Boolean (Some false).
Definition startLoadingTime : Typed.t (Js.Number) := Number (Some (Js.of_Z (-1))).
Definition connectedTime : Typed.t (Js.Number) := Number (Some (Js.of_Z (-1))).
Definition endLoadingTime : Typed.t (Js.Number) := Number (Some (Js.of_Z (-1))).
Definition isFocused : Typed.t (bool) := Boolean (Some false).
Definition isActive : Typed.t (bool) := Boolean (Some false).
Definition isSelected : Typed.t (bool) := Boolean (Some false).
Definition isPinned : Typed.t (bool) := Boolean (Some false).
Definition uri : Typed.t (option string) := Maybe (String None).
Definition title : Typed.t (option string) := Maybe (String None).
Definition icons : Typed.t (Value) := Any.
Definition meta : Typed.t (Value) := Any.
Definition backgroundColor : Typed.t (option string) := Maybe (String None).
Definition foregroundColor : Typed.t (option string) := Maybe (String None).
Definition isDark : Typed.t (bool) := Boolean (Some false).
Definition securityState : Typed.t (string) := String (Some "insecure").
Definition securityExtendedValidation : Typed.t (bool) := Boolean (Some false).
Definition canGoBack : Typed.t (bool) := Boolean (Some false).
Definition canGoForward : Typed.t (bool) := Boolean (Some false).
Definition contentOverflows : Typed.t (bool) := Boolean (Some false).
Definition thumbnail : Typed.t (option string) := Maybe (String None).
End Type_.

Definition fields : list string :=
  ["id"; "userInput"; "zoom"; "readyState"; "isLoading"; "isConnecting";
   "startLoadingTime"; "connectedTime"; "endLoadingTime"; "isFocused";
   "isActive"; "isSelected"; "isPinned"; "uri"; "title"; "icons"; "meta";
   "backgroundColor"; "foregroundColor"; "isDark"; "securityState";
   "securityExtendedValidation"; "canGoBack"; "canGoForward";
   "contentOverflows"; "thumbnail"].

(** One field of [set]: the field named [key] reads the new value through
    its type, every other field keeps its current value. *)
Definition field {A} (key name : string) (type : Typed.t A)
    (value : Value) (current : A) : Result A :=
  if String.eqb key name then Typed.read type value else Ok current.

(** The method [target.set(key, value)]: an unknown key and a value the field type
    rejects both throw. *)
Definition set_ (key : string) (value : Value) (target : WebView)
    : Result WebView :=
  if negb (existsb (String.eqb key) fields)
  then Throw "Cannot set unknown field"
  else
    id' <- field key "id" Type_.id value (id target) ;;
    userInput' <- field key "userInput" Type_.userInput value (userInput target) ;;
    zoom' <- field key "zoom" Type_.zoom value (zoom target) ;;
    readyState' <- field key "readyState" Type_.readyState value (readyState target) ;;
    isLoading' <- field key "isLoading" Type_.isLoading value (isLoading target) ;;
    isConnecting' <- field key "isConnecting" Type_.isConnecting value (isConnecting target) ;;
    startLoadingTime' <- field key "startLoadingTime" Type_.startLoadingTime value (startLoadingTime target) ;;
    connectedTime' <- field key "connectedTime" Type_.connectedTime value (connectedTime target) ;;
    endLoadingTime' <- field key "endLoadingTime" Type_.endLoadingTime value (endLoadingTime target) ;;
    isFocused' <- field key "isFocused" Type_.isFocused value (isFocused target) ;;
    isActive' <- field key "isActive" Type_.isActive value (isActive target) ;;
    isSelected' <- field key "isSelected" Type_.isSelected value (isSelected target) ;;
    isPinned' <- field key "isPinned" Type_.isPinned value (isPinned target) ;;
    uri' <- field key "uri" Type_.uri value (uri target) ;;
    title' <- field key "title" Type_.title value (title target) ;;
    icons' <- field key "icons" Type_.icons value (icons target) ;;
    meta' <- field key "meta" Type_.meta value (meta target) ;;
    backgroundColor' <- field key "backgroundColor" Type_.backgroundColor value (backgroundColor target) ;;
    foregroundColor' <- field key "foregroundColor" Type_.foregroundColor value (foregroundColor target) ;;
    isDark' <- field key "isDark" Type_.isDark value (isDark target) ;;
    securityState' <- field key "securityState" Type_.securityState value (securityState target) ;;
    securityExtendedValidation' <- field key "securityExtendedValidation" Type_.securityExtendedValidation value (securityExtendedValidation target) ;;
    canGoBack' <- field key "canGoBack" Type_.canGoBack value (canGoBack target) ;;
    canGoForward' <- field key "canGoForward" Type_.canGoForward value (canGoForward target) ;;
    contentOverflows' <- field key "contentOverflows" Type_.contentOverflows value (contentOverflows target) ;;
    thumbnail' <- field key "thumbnail" Type_.thumbnail value (thumbnail target) ;;
    Ok {| id := id';
          userInput := userInput';
          zoom := zoom';
          readyState := readyState';
          isLoading := isLoading';
          isConnecting := isConnecting';
          startLoadingTime := startLoadingTime';
          connectedTime := connectedTime';
          endLoadingTime := endLoadingTime';
          isFocused := isFocused';
          isActive := isActive';
          isSelected := isSelected';
          isPinned := isPinned';
          uri := uri';
          title := title';
          icons := icons';
          meta := meta';
          backgroundColor := backgroundColor';
          foregroundColor := foregroundColor';
          isDark := isDark';
          securityState := securityState';
          securityExtendedValidation := securityExtendedValidation';
          canGoBack := canGoBack';
          canGoForward := canGoForward';
          contentOverflows := contentOverflows';
          thumbnail := thumbnail' |}.

(** The method [target.remove(key)] sets a declared field to [undefined],
    that is to its default. *)
Definition remove_ (key : string) (target : WebView) : Result WebView :=
  if existsb (String.eqb key) fields then set_ key Undefined target
  else Ok target.

(** The method [state.merge(delta)] sets the keys of [delta] one after the
    other, in the order of the object literal. *)
Fixpoint merge_ (delta : list (string * Value)) (state : WebView)
    : Result WebView :=
  match delta with
  | [] => Ok state
  | (key, value) :: rest => state' <- set_ key value state ;; merge_ rest state'
  end.

(** [structure[key]], [undefined] when the key is absent. *)
Fixpoint prop (key : string) (structure : list (string * Value)) : Value :=
  match structure with
  | [] => Undefined
  | (k, v) :: rest => if String.eqb k key then v else prop key rest
  end.

(** The constructor [WebView(structure)]: every field is read from the
    structure, an absent one from [undefined]. *)
Definition make (structure : list (string * Value)) : Result WebView :=
  id' <- Typed.read Type_.id (prop "id" structure) ;;
  userInput' <- Typed.read Type_.userInput (prop "userInput" structure) ;;
  zoom' <- Typed.read Type_.zoom (prop "zoom" structure) ;;
  readyState' <- Typed.read Type_.readyState (prop "readyState" structure) ;;
  isLoading' <- Typed.read Type_.isLoading (prop "isLoading" structure) ;;
  isConnecting' <- Typed.read Type_.isConnecting (prop "isConnecting" structure) ;;
  startLoadingTime' <- Typed.read Type_.startLoadingTime (prop "startLoadingTime" structure) ;;
  connectedTime' <- Typed.read Type_.connectedTime (prop "connectedTime" structure) ;;
  endLoadingTime' <- Typed.read Type_.endLoadingTime (prop "endLoadingTime" structure) ;;
  isFocused' <- Typed.read Type_.isFocused (prop "isFocused" structure) ;;
  isActive' <- Typed.read Type_.isActive (prop "isActive" structure) ;;
  isSelected' <- Typed.read Type_.isSelected (prop "isSelected" structure) ;;
  isPinned' <- Typed.read Type_.isPinned (prop "isPinned" structure) ;;
  uri' <- Typed.read Type_.uri (prop "uri" structure) ;;
  title' <- Typed.read Type_.title (prop "title" structure) ;;
  icons' <- Typed.read Type_.icons (prop "icons" structure) ;;
  meta' <- Typed.read Type_.meta (prop "meta" structure) ;;
  backgroundColor' <- Typed.read Type_.backgroundColor (prop "backgroundColor" structure) ;;
  foregroundColor' <- Typed.read Type_.foregroundColor (prop "foregroundColor" structure) ;;
  isDark' <- Typed.read Type_.isDark (prop "isDark" structure) ;;
  securityState' <- Typed.read Type_.securityState (prop "securityState" structure) ;;
  securityExtendedValidation' <- Typed.read Type_.securityExtendedValidation (prop "securityExtendedValidation" structure) ;;
  canGoBack' <- Typed.read Type_.canGoBack (prop "canGoBack" structure) ;;
  canGoForward' <- Typed.read Type_.canGoForward (prop "canGoForward" structure) ;;
  contentOverflows' <- Typed.read Type_.contentOverflows (prop "contentOverflows" structure) ;;
  thumbnail' <- Typed.read Type_.thumbnail (prop "thumbnail" structure) ;;
  Ok {| id := id';
        userInput := userInput';
        zoom := zoom';
        readyState := readyState';
        isLoading := isLoading';
        isConnecting := isConnecting';
        startLoadingTime := startLoadingTime';
        connectedTime := connectedTime';
        endLoadingTime := endLoadingTime';
        isFocused := isFocused';
        isActive := isActive';
        isSelected := isSelected';
        isPinned := isPinned';
        uri := uri';
        title := title';
        icons := icons';
        meta := meta';
        backgroundColor := backgroundColor';
        foregroundColor := foregroundColor';
        isDark := isDark';
        securityState := securityState';
        securityExtendedValidation := securityExtendedValidation';
        canGoBack := canGoBack';
        canGoForward := canGoForward';
        contentOverflows := contentOverflows';
        thumbnail := thumbnail' |}.

Definition set (field : string) (value : Value) (target : WebView)
    : Result WebView :=
  set_ field value target.

Definition patch (delta : list (string * Value)) (state : WebView)
    : Result WebView :=
  merge_ delta state.

(** Returns state with fields that represent state that can not be
    restored cleared. *)
Definition persistent : WebView -> Result WebView :=
  patch [("thumbnail", Undefined);
         ("readyState", Undefined);
         ("isLoading", Undefined);
         ("isConnecting", Undefined);
         ("startLoadingTime", Undefined);
         ("connectedTime", Undefined);
         ("endLoadingTime", Undefined);
         ("backgroundColor", Undefined);
         ("foregroundColor", Undefined);
         ("isDark", Undefined);
         ("title", Undefined);
         ("securityState", Undefined);
         ("securityExtendedValidation", Undefined);
         ("canGoBack", Undefined);
         ("canGoForward", Undefined)].

Definition reload : WebView -> Result WebView :=
  patch [("readyState", Str "reload")].
Definition stop : WebView -> Result WebView :=
  patch [("readyState", Str "stop")].
Definition goBack : WebView -> Result WebView :=
  patch [("readyState", Str "goBack")].
Definition goForward : WebView -> Result WebView :=
  patch [("readyState", Str "goForward")].

(** [0.5], [2] and [0.1] denote the binary64 values nearest to them. *)
Definition ZOOM_MIN : Js.Number := Js.div (Js.of_Z 1) (Js.of_Z 2).
Definition ZOOM_MAX : Js.Number := Js.of_Z 2.
Definition ZOOM_STEP : Js.Number := Js.div (Js.of_Z 1) (Js.of_Z 10).

Definition zoomIn_ (value : Js.Number) : Js.Number :=
  Math_min ZOOM_MAX (Js.add value ZOOM_STEP).
Definition zoomOut_ (value : Js.Number) : Js.Number :=
  Math_max ZOOM_MIN (Js.sub value ZOOM_STEP).

(** [state.update('zoom', f)] stores [f(state.zoom)] in the field. *)
Definition zoomIn (state : WebView) : Result WebView :=
  set_ "zoom" (Num (zoomIn_ (zoom state))) state.
Definition zoomOut (state : WebView) : Result WebView :=
  set_ "zoom" (Num (zoomOut_ (zoom state))) state.
Definition zoomReset (state : WebView) : Result WebView :=
  remove_ "zoom" state.

Definition setMetaData : Value -> WebView -> Result WebView := set "meta".
Definition setTitle : Value -> WebView -> Result WebView := set "title".
Definition setCanGoBack : Value -> WebView -> Result WebView :=
  set "canGoBack".
Definition setCanGoForward : Value -> WebView -> Result WebView :=
  set "canGoForward".

(** In the three transitions below [now] is what [performance.now()]
    returns when the transition is applied to the state. *)
Definition startLoad (now : Js.Number) (state : WebView) : Result WebView :=
  merge_ [("readyState", Str "loading");
          ("isLoading", Bool true);
          ("isConnecting", Bool true);
          ("startLoadingTime", Num now);
          ("icons", Undefined);
          ("thumbnail", Undefined);
          ("title", Undefined);
          ("securityState", Undefined);
          ("securityExtendedValidation", Undefined);
          ("canGoBack", Undefined);
          ("canGoForward", Undefined)] state.

Definition endLoad (now : Js.Number) (state : WebView) : Result WebView :=
  merge_ [("isConnecting", Bool false);
          ("endLoadingTime", Num now);
          ("readyState", Str "loaded");
          ("isLoading", Bool false)] state.

(** The parameter [connectedTime] is the argument of the source function;
    its body does not mention it. *)
Definition changeProgress (connectedTime : Value) (now : Js.Number)
    (state : WebView) : Result WebView :=
  if negb (isConnecting state) then Ok state
  else merge_ [("isConnecting", Bool false);
               ("connectedTime", Num now)] state.

Definition changeSecurity (state' extendedValidation : Value)
    (state : WebView) : Result WebView :=
  merge_ [("securityState", state');
          ("securityExtendedValidation", extendedValidation)] state.

Definition setContentOverflows : Value -> WebView -> Result WebView :=
  set "contentOverflows".

(** The record [WebView({id})] with every other field at its default. *)
Definition blank (id : string) : WebView :=
  {| id := id;
     userInput := "";
     zoom := Js.of_Z 1;
     readyState := None;
     isLoading := false;
     isConnecting := false;
     startLoadingTime := Js.of_Z (-1);
     connectedTime := Js.of_Z (-1);
     endLoadingTime := Js.of_Z (-1);
     isFocused := false;
     isActive := false;
     isSelected := false;
     isPinned := false;
     uri := None;
     title := None;
     icons := Undefined;
     meta := Undefined;
     backgroundColor := None;
     foregroundColor := None;
     isDark := false;
     securityState := "insecure";
     securityExtendedValidation := false;
     canGoBack := false;
     canGoForward := false;
     contentOverflows := false;
     thumbnail := None |}.

(** The state a transition returns, [state] itself if it throws. *)
Definition orElse (r : Result WebView) (state : WebView) : WebView :=
  match r with
  | Ok state' => state'
  | Throw _ => state
  end.

(** A view of the given id that shows the given address. *)
Definition page (id uri : string) : WebView :=
  orElse (set_ "uri" (Str uri) (blank id)) (blank id).

(** The data passed to [IFrame] by [WebView.render]; the event handlers
    are left out. *)
Record IFrame : Type := {
  className_contentoverflows : bool;
  className_rendered : bool;
  isVisible : bool;
  hidden : bool;
  frame_zoom : Js.Number;
  frame_isFocused : bool;
  frame_uri : string;
  frame_readyState : option string
}.

(** Do not render anything unless viewer has an [uri]: [null] and the
    empty string are falsy. *)
Definition render (state : WebView) : option IFrame :=
  match uri state with
  | None => None
  | Some u =>
      if String.eqb u "" then None
      else Some {| className_contentoverflows := contentOverflows state;
                   className_rendered :=
                     match thumbnail state with
                     | Some url => negb (String.eqb url "")
                     | None => false
                     end;
                   isVisible := isActive state || isSelected state;
                   hidden := negb (isActive state);
                   frame_zoom := zoom state;
                   frame_isFocused := isFocused state;
                   frame_uri := u;
                   frame_readyState := readyState state |}
  end.

(** [n] applications of a transition, one after the other. *)
Fixpoint chain (transition : WebView -> Result WebView) (n : nat)
    (state : WebView) : Result WebView :=
  match n with
  | O => Ok state
  | S n' => state' <- transition state ;; chain transition n' state'
  end.

(** The value of a [Maybe(String)] field: the string or [null]. *)
Definition ofMaybe (m : option string) : Value :=
  match m with
  | Some s => Str s
  | None => Null
  end.

(** The method [target.get(key)], which the getters [target.key] call:
    the value of a declared field, [undefined] for any other key. *)
Definition get (key : string) (target : WebView) : Value :=
  if String.eqb key "id" then Str (id target) else
  if String.eqb key "userInput" then Str (userInput target) else
  if String.eqb key "zoom" then Num (zoom target) else
  if String.eqb key "readyState" then ofMaybe (readyState target) else
  if String.eqb key "isLoading" then Bool (isLoading target) else
  if String.eqb key "isConnecting" then Bool (isConnecting target) else
  if String.eqb key "startLoadingTime" then Num (startLoadingTime target) else
  if String.eqb key "connectedTime" then Num (connectedTime target) else
  if String.eqb key "endLoadingTime" then Num (endLoadingTime target) else
  if String.eqb key "isFocused" then Bool (isFocused target) else
  if String.eqb key "isActive" then Bool (isActive target) else
  if String.eqb key "isSelected" then Bool (isSelected target) else
  if String.eqb key "isPinned" then Bool (isPinned target) else
  if String.eqb key "uri" then ofMaybe (uri target) else
  if String.eqb key "title" then ofMaybe (title target) else
  if String.eqb key "icons" then icons target else
  if String.eqb key "meta" then meta target else
  if String.eqb key "backgroundColor" then ofMaybe (backgroundColor target) else
  if String.eqb key "foregroundColor" then ofMaybe (foregroundColor target) else
  if String.eqb key "isDark" then Bool (isDark target) else
  if String.eqb key "securityState" then Str (securityState target) else
  if String.eqb key "securityExtendedValidation" then Bool (securityExtendedValidation target) else
  if String.eqb key "canGoBack" then Bool (canGoBack target) else
  if String.eqb key "canGoForward" then Bool (canGoForward target) else
  if String.eqb key "contentOverflows" then Bool (contentOverflows target) else
  if String.eqb key "thumbnail" then ofMaybe (thumbnail target) else
  Undefined.

(** [Object.assign(target, source)] on objects read with [prop]: the keys
    of the source come first, so they hide those of the target. *)
Definition Object_assign (target source : list (string * Value))
    : list (string * Value) :=
  source ++ target.

(** [WebView.open(state)]; [uuid] is what the call [uuid()] returns, and
    the default [{}] of the parameter is the empty list. *)
Definition open (uuid : string) (state : list (string * Value))
    : Result WebView :=
  make (Object_assign [("id", Str uuid)] state).

(** [map.set(key, value)] on an Immutable [Map], read as the list of its
    entries: the value of a key that is present is replaced, a new key is
    added. [map.get(key)] is [prop key]. *)
Fixpoint Map_set (key : string) (value : Value)
    (entries : list (string * Value)) : list (string * Value) :=
  match entries with
  | [] => [(key, value)]
  | (k, v) :: rest =>
      if String.eqb k key then (key, value) :: rest
      else (k, v) :: Map_set key value rest
  end.

(** The detail of [mozbrowsericonchange]: an object with an [href]. *)
Record Icon : Type := {
  href : string;
  attributes : list (string * Value)
}.

Definition iconObject (icon : Icon) : Value :=
  Obj (("href", Str (href icon)) :: attributes icon).

(** In the field [icons] an [Obj] is the Immutable [Map] that this
    transition builds; the transitions of the file store nothing else
    there but [undefined]. [setIn] on a truthy value without a [set]
    method fails with the error [invalid keyPath]. *)
Definition changeIcon (icon : Icon) (state : WebView) : Result WebView :=
  if truthy (icons state)
  then match icons state with
       | Obj entries =>
           set_ "icons"
             (Obj (Map_set (href icon) (iconObject icon) entries)) state
       | _ => Throw "invalid keyPath"
       end
  else set_ "icons" (Obj [(href icon, iconObject icon)]) state.

End WebView.

(** ** Promises over a run of the event loop

    The page is single threaded: after [requestThumbnail] is called, the
    event loop dispatches one event after the other, and every promise
    reaction scheduled by an event runs before the next event is taken.
    A run lists these events. Turn [0] is the turn of the call, the event
    [i] of the run is dispatched in turn [i + 1]. A promise is read by the
    turn in which it settles and by its outcome. *)

Module Promise.
Import Js.

Inductive Turn : Type :=
| DomEvent (type : string) (detail : Value)
    (* an event dispatched on the iframe *)
| XhrLoad (status : nat) (statusText : string) (response : Value)
    (* [request.onload] of the tile request *)
| XhrError
    (* [request.onerror] of the tile request *)
| RequestSuccess (result : Value)
    (* [onsuccess] of the screenshot DOMRequest *)
| RequestError (error : Value).
    (* [onerror] of the screenshot DOMRequest *)

Definition isDomEvent (type : string) (e : Turn) : bool :=
  match e with
  | DomEvent type' _ => String.eqb type' type
  | _ => false
  end.

(** The events that settle the tile request. *)
Definition isXhr (e : Turn) : bool :=
  match e with
  | XhrLoad _ _ _ | XhrError => true
  | _ => false
  end.

Definition eventObject (type : string) (detail : Value) : Value :=
  Obj [("type", Str type); ("detail", detail)].

Inductive Outcome : Type :=
| Fulfilled (value : Value)
| Rejected (reason : Value).

(** [None] is a promise that stays pending for the whole run. *)
Definition Promise : Type := option (nat * Outcome).

(** What the code does besides building promises: it asks the iframe for
    a screenshot, and it hands a transition to [edit], which applies it
    to the state of the web view. *)
Inductive Effect : Type :=
| GetScreenshot
| Edit (transition : WebView.WebView -> Result WebView.WebView).

(** Code that runs within turns: its value and the effects it performs,
    each with its turn, in the order they happen. *)
Definition Action (A : Type) : Type := (A * list (nat * Effect))%type.

Definition ret {A} (a : A) : Action A := (a, []).

Definition bind {A B} (m : Action A) (k : A -> Action B) : Action B :=
  let '(a, effects) := m in
  let '(b, effects') := k a in
  (b, effects ++ effects').

Definition perform (now : nat) (e : Effect) : Action unit :=
  (tt, [(now, e)]).

Definition effects {A} (m : Action A) : list (nat * Effect) := snd m.

Definition resolve (now : nat) (value : Value) : Promise :=
  Some (now, Fulfilled value).

Definition reject (now : nat) (reason : Value) : Promise :=
  Some (now, Rejected reason).

(** A reaction registered in turn [now] runs in the turn the promise
    settles, and in turn [now] if it had settled before. *)
Definition observe (now : nat) (p : Promise) : Promise :=
  match p with
  | None => None
  | Some (t, outcome) => Some (Nat.max now t, outcome)
  end.

(** A handler is given the turn it runs in; it returns the promise that
    the derived promise follows. *)
Definition Handler : Type := nat -> Value -> Action Promise.

Definition then_ (now : nat) (p : Promise) (onFulfilled : Handler)
    : Action Promise :=
  match observe now p with
  | None => ret None
  | Some (t, Fulfilled value) =>
      bind (onFulfilled t value) (fun q => ret (observe t q))
  | Some (t, Rejected reason) => ret (reject t reason)
  end.

Definition catch_ (now : nat) (p : Promise) (onRejected : Handler)
    : Action Promise :=
  match observe now p with
  | None => ret None
  | Some (t, Fulfilled value) => ret (resolve t value)
  | Some (t, Rejected reason) =>
      bind (onRejected t reason) (fun q => ret (observe t q))
  end.

(** [Promise.race] subscribes to the promises in the order of the array
    and follows the first reaction that runs: the promise observed in the
    earliest turn, and the earlier one in the array among those observed
    in the same turn. In [requestThumbnail] two promises of a race are
    observed in the same turn in two cases only. Either both had settled
    before the race was made, and their reactions are queued in the order
    of the array. Or [thumbnail] is rejected by [abort] itself, in the turn
    of [abort], and both carry the same reason. An event has one type and
    a turn has one event, so no other two settle in the same turn. *)
Fixpoint first (ps : list Promise) : Promise :=
  match ps with
  | [] => None
  | p :: rest =>
      match p, first rest with
      | None, q => q
      | Some a, None => Some a
      | Some (t, o), Some (t', o') =>
          if Nat.leb t t' then Some (t, o) else Some (t', o')
      end
  end.

Definition race (now : nat) (ps : list Promise) : Promise :=
  first (List.map (observe now) ps).

(** The listener of [fromEvent]: an event of the awaited type resolves
    the promise with the event. *)
Definition dispatched (type : string) (e : Turn) : option Outcome :=
  match e with
  | DomEvent type' detail =>
      if String.eqb type' type
      then Some (Fulfilled (eventObject type' detail))
      else None
  | _ => None
  end.

(** The callbacks of a DOMRequest. *)
Definition answered (e : Turn) : option Outcome :=
  match e with
  | RequestSuccess result => Some (Fulfilled result)
  | RequestError error => Some (Rejected error)
  | _ => None
  end.

Section Run.
Variable run : list Turn.

(** The first turn from [turn] on whose event [select] accepts. *)
Fixpoint scan (select : Turn -> option Outcome) (turn : nat)
    (rest : list Turn) : Promise :=
  match rest with
  | [] => None
  | e :: rest' =>
      match select e with
      | Some outcome => Some (turn, outcome)
      | None => scan select (S turn) rest'
      end
  end.

(** A promise settled by the first accepted event dispatched after
    turn [now]. *)
Definition after (now : nat) (select : Turn -> option Outcome) : Promise :=
  scan select (S now) (skipn now run).

(** Modelled from the spec: [fromEvent] of lang/promise, which is not
    among the sources. The spec describes its two uses: a promise that
    resolves the moment the surface emits the event ([locationchange],
    [loadend]). A listener added while an event is dispatched is not
    called for that event, so the promise waits for a later turn. *)
Definition fromEvent (now : nat) (type : string) : Promise :=
  after now (dispatched type).

(** Modelled from the spec: [fromDOMRequest] of lang/promise, which is
    not among the sources. The spec describes the capture as an
    asynchronous request that returns the image or fails with an
    error of the capture interface. *)
Definition fromDOMRequest (now : nat) : Promise :=
  after now answered.
End Run.

End Promise.

Notation "x <~ m ;; k" := (Promise.bind m (fun x => k))
  (at level 61, m at next level, right associativity).

(** ** The thumbnail of a web view *)

Module Thumbnail.
Import Js Promise.

Section Browser.
(** [URL.createObjectURL] and [getHardcodedColors] of ./theme belong to
    the browser and to another module; they are parameters here. *)
Variable createObjectURL : Value -> string.
Variable getHardcodedColors : Value -> list (string * Value).

Variable run : list Turn.

Definition changeLocation (value : Value) (state : WebView.WebView)
    : Result WebView.WebView :=
  state' <- WebView.merge_
              [("uri", value);
               ("readyState",
                Str (if WebView.isLoading state then "loading"
                     else "loaded"));
               ("userInput", value)] state ;;
  WebView.merge_ (getHardcodedColors value) state'.

(** [edit] is the effect [Edit]; the handler returns [undefined]. *)
Definition onThumbnailChanged : Handler :=
  fun now blob =>
    _ <~ perform now
           (Edit (fun state =>
                    WebView.set_ "thumbnail"
                      (Str (createObjectURL blob)) state)) ;;
    ret (resolve now Undefined).

Definition fetchScreenshot (now : nat) : Action Promise :=
  _ <~ perform now GetScreenshot ;;
  ret (fromDOMRequest run now).

(** [request.onload] resolves with the response if the status is 200
    and rejects with the status text otherwise; [request.onerror]
    rejects with [undefined]. *)
Definition loadedOrFailed (e : Turn) : option Outcome :=
  match e with
  | XhrLoad status statusText response =>
      if Nat.eqb status 200 then Some (Fulfilled response)
      else Some (Rejected (Str statusText))
  | XhrError => Some (Rejected Undefined)
  | _ => None
  end.

(** The request is sent in turn [now]; the promise follows the first of
    [onload] and [onerror]. *)
Definition fetchThumbnail (now : nat) : Promise :=
  after run now loadedOrFailed.

Definition requestThumbnail (now : nat) : Action Promise :=
  abort <~ then_ now (fromEvent run now "mozbrowserlocationchange")
             (fun t event => ret (reject t event)) ;;
  let loaded := fromEvent run now "mozbrowserloadend" in
  thumbnail <~ catch_ now (fetchThumbnail now)
                 (fun t _ =>
                    then_ t (race t [abort; loaded])
                      (fun t' _ => fetchScreenshot t')) ;;
  ret (race now [abort; thumbnail]).

(** The second statement of the handler below,
    [requestThumbnail(event.target).then(WebView.onThumbnailChanged(edit))].
    The promise returned by [then] is dropped: nothing is registered on
    it, a rejection stays there. *)
Definition thumbnailChange (now : nat) : Action Promise :=
  result <~ requestThumbnail now ;;
  then_ now result onThumbnailChanged.

(** The handler of [mozbrowserlocationchange], called in turn [now] with
    [event.detail]. *)
Definition onLocationChange (now : nat) (detail : Value) : Action Promise :=
  _ <~ perform now (Edit (changeLocation detail)) ;;
  thumbnailChange now.

(** The state of the web view once the edits have been applied. *)
Fixpoint applyEdits (log : list (nat * Effect)) (state : WebView.WebView)
    : Result WebView.WebView :=
  match log with
  | [] => Ok state
  | (_, Edit transition) :: rest =>
      state' <- transition state ;; applyEdits rest state'
  | (_, GetScreenshot) :: rest => applyEdits rest state
  end.

Definition screenshots (log : list (nat * Effect)) : nat :=
  List.length
    (List.filter
       (fun e => match snd e with GetScreenshot => true | _ => false end)
       log).
End Browser.

(** None of the events is of one of the kinds. *)
Definition quiet (kinds : list (Turn -> bool)) (events : list Turn) : bool :=
  List.forallb (fun e => negb (List.existsb (fun kind => kind e) kinds))
    events.

End Thumbnail.

(** ** The deck of web views *)

Module WebViewBox.

Definition id (x : WebView.WebView) : string := WebView.id x.

Record WebViewBox : Type := {
  isActive : bool;
  items : list WebView.WebView
}.

(** [items.sortBy(key)] compares the keys with [<] and [>], on strings
    the order of their code units, and items of equal key by their index:
    whatever the algorithm of the engine, the outcome is the stable sort
    by key. *)
Fixpoint insert {A} (key : A -> string) (x : A) (sorted : list A) : list A :=
  match sorted with
  | [] => [x]
  | y :: rest =>
      if String.leb (key x) (key y) then x :: sorted
      else y :: insert key x rest
  end.

Definition sortBy {A} (key : A -> string) (l : list A) : list A :=
  List.fold_right (insert key) [] l.

(** A child of the deck: its React key and what [WebView.render] returns
    for it, [None] for [null]. *)
Record Child : Type := {
  key : string;
  frame : option WebView.IFrame
}.

Record Div : Type := {
  className : string;
  hidden : bool;
  children : list Child
}.

(** WebView deck will always inject frames by order of their id. That way
    no iframes will need to be removed / injected when order of tabs
    change. *)
Definition render (state : WebViewBox) : Div :=
  {| className := "iframes";
     hidden := negb (isActive state);
     children :=
       List.map
         (fun webView => {| key := WebView.id webView;
                            frame := WebView.render webView |})
         (sortBy id (items state)) |}.

(** The keys of the children in the order of the element, and of those
    that have a frame. *)
Definition order (element : Div) : list string :=
  List.map key (children element).

Definition mounted (element : Div) : list string :=
  List.map key
    (List.filter
       (fun child => match frame child with Some _ => true | None => false end)
       (children element)).

End WebViewBox.

(** ** Notions the statements are written with *)

(** The order of [sortBy] on keys: [a <= b] on strings. *)
Definition le (a b : string) : Prop := String.leb a b = true.

Definition le_key {A : Type} (key : A -> string) (a b : A) : Prop :=
  le (key a) (key b).

(** A state that is connecting: [startLoad] applied to a new view. *)
Definition connecting : WebView.WebView :=
  WebView.orElse (WebView.startLoad (Js.of_Z 5) (WebView.blank "a"))
    (WebView.blank "a").

(** The reading of [changeProgress] in which the connected time of the
    result is the argument of the transition. *)
Definition stamps_argument (argument : Js.Value) (now : Js.Number)
    (s : WebView.WebView) : Prop :=
  exists s',
    WebView.changeProgress argument now s = Js.Ok s' /\
    WebView.isConnecting s' = false /\
    Js.Num (WebView.connectedTime s') = argument.

(** The setters of the boolean fields, with the field each one sets. *)
Definition booleanSetters
    : list ((Js.Value -> WebView.WebView -> Js.Result WebView.WebView)
            * string) :=
  [(WebView.setCanGoBack, "canGoBack");
   (WebView.setCanGoForward, "canGoForward");
   (WebView.setContentOverflows, "contentOverflows")].

(** The four commands passed to the iframe through [readyState]. *)
Definition commands
    : list (WebView.WebView -> Js.Result WebView.WebView) :=
  [WebView.reload; WebView.stop; WebView.goBack; WebView.goForward].

(** The icons of a state, as the entries of the map; none if the field
    holds no map. *)
Definition iconEntries (s : WebView.WebView) : list (string * Js.Value) :=
  match WebView.icons s with
  | Js.Obj entries => entries
  | _ => []
  end.

(** Two icons of one address. *)
Definition favicon : WebView.Icon :=
  {| WebView.href := "http://a.org/favicon.ico";
     WebView.attributes := [] |}.

Definition favicon' : WebView.Icon :=
  {| WebView.href := "http://a.org/favicon.ico";
     WebView.attributes := [("sizes", Js.Str "16x16")] |}.

(** A view is rendered if [WebView.render] returns a frame for it. *)
Definition rendered (webView : WebView.WebView) : bool :=
  match WebView.render webView with
  | Some _ => true
  | None => false
  end.

(** * Properties *)

(** ** Numbers *)

Section NoNaN.
Variables prec emax : Z.

Lemma shr_1_nonneg mrs : (0 <= shr_m mrs)%Z -> (0 <= shr_m (shr_1 mrs))%Z.
Proof.
  destruct mrs as [m r s]; simpl.
  destruct m as [|p|p]; simpl; try lia; destruct p; simpl; lia.
Qed.

Lemma iter_shr_1_nonneg n : forall mrs,
  (0 <= shr_m mrs)%Z -> (0 <= shr_m (iter_pos shr_1 n mrs))%Z.
Proof.
  induction n as [n IH|n IH|]; intros mrs H; simpl.
  - apply IH, IH, shr_1_nonneg, H.
  - apply IH, IH, H.
  - apply shr_1_nonneg, H.
Qed.

Lemma shr_fexp_nonneg m e l :
  (0 <= m)%Z -> (0 <= shr_m (fst (shr_fexp prec emax m e l)))%Z.
Proof.
  intros H. unfold shr_fexp, shr.
  assert (H0 : (0 <= shr_m (shr_record_of_loc m l))%Z)
    by (destruct l as [|[]]; exact H).
  destruct (fexp prec emax (Zdigits2 m + e) - e)%Z; simpl; auto.
  apply iter_shr_1_nonneg, H0.
Qed.

Lemma round_nearest_even_nonneg m l :
  (0 <= m)%Z -> (0 <= round_nearest_even m l)%Z.
Proof.
  intros H. destruct l as [|[]]; simpl; try lia.
  destruct (Z.even m); lia.
Qed.

(** Rounding a non-negative mantissa never produces NaN. *)
Lemma binary_round_aux_not_nan sx mx ex lx :
  (0 <= mx)%Z -> binary_round_aux prec emax sx mx ex lx <> S754_nan.
Proof.
  intros H. unfold binary_round_aux.
  pose proof (shr_fexp_nonneg mx ex lx H) as H1.
  destruct (shr_fexp prec emax mx ex lx) as [mrs' e']. simpl in H1.
  pose proof (shr_fexp_nonneg _ e' loc_Exact
                (round_nearest_even_nonneg _ (loc_of_shr_record mrs') H1))
    as H2.
  destruct (shr_fexp prec emax _ e' loc_Exact) as [mrs'' e'']. simpl in H2.
  destruct (shr_m mrs''); try lia; try discriminate.
  destruct (Z.leb e'' (emax - prec)); discriminate.
Qed.

Lemma binary_normalize_not_nan m e szero :
  binary_normalize prec emax m e szero <> S754_nan.
Proof.
  destruct m; simpl; try discriminate; unfold binary_round;
    destruct (shl_align _ _ _); apply binary_round_aux_not_nan; lia.
Qed.

Lemma SFadd_finite_not_nan x sy my ey :
  x <> S754_nan -> SFadd prec emax x (S754_finite sy my ey) <> S754_nan.
Proof.
  intros H. destruct x; simpl; try discriminate; try congruence.
  apply binary_normalize_not_nan.
Qed.

Lemma SFsub_finite_not_nan x sy my ey :
  x <> S754_nan -> SFsub prec emax x (S754_finite sy my ey) <> S754_nan.
Proof.
  intros H. destruct x; simpl; try discriminate; try congruence.
  apply binary_normalize_not_nan.
Qed.
End NoNaN.

Section Numbers.
Import Js.

Lemma is_nan_false (x : Number) : is_nan x = false <-> x <> S754_nan.
Proof. destruct x; simpl; split; congruence. Qed.

(** A comparison that holds has no NaN on either side. *)
Lemma leb_not_nan (x y : Number) :
  leb x y = true -> is_nan x = false /\ is_nan y = false.
Proof.
  unfold leb, SFleb. destruct x, y; simpl; try discriminate; auto.
Qed.

Lemma ltb_leb (x y : Number) : ltb x y = true -> leb x y = true.
Proof.
  unfold ltb, leb, SFltb, SFleb.
  destruct (SFcompare x y) as [[]|]; congruence.
Qed.

Lemma Math_min_le (c x : Number) :
  leb c c = true -> is_nan x = false -> leb (Math_min c x) c = true.
Proof.
  intros Hc Hx. unfold Math_min.
  destruct c, x; try discriminate; try exact Hc; try reflexivity;
    match goal with
    | |- leb (if ltb ?a ?b then _ else _) _ = true =>
        destruct (ltb a b) eqn:E; [apply ltb_leb, E | exact Hc]
    end.
Qed.

Lemma Math_max_ge (c x : Number) :
  leb c c = true -> is_nan x = false -> leb c (Math_max c x) = true.
Proof.
  intros Hc Hx. unfold Math_max.
  destruct c, x; try discriminate; try exact Hc; try reflexivity;
    match goal with
    | |- leb _ (if ltb ?a ?b then _ else _) = true =>
        destruct (ltb a b) eqn:E; [apply ltb_leb, E | exact Hc]
    end.
Qed.

Lemma add_step_not_nan (x : Number) :
  is_nan x = false -> is_nan (add x WebView.ZOOM_STEP) = false.
Proof.
  rewrite !is_nan_false. intros H.
  change WebView.ZOOM_STEP with (S754_finite false 7205759403792794 (-56)).
  apply SFadd_finite_not_nan, H.
Qed.

Lemma sub_step_not_nan (x : Number) :
  is_nan x = false -> is_nan (sub x WebView.ZOOM_STEP) = false.
Proof.
  rewrite !is_nan_false. intros H.
  change WebView.ZOOM_STEP with (S754_finite false 7205759403792794 (-56)).
  apply SFsub_finite_not_nan, H.
Qed.

Lemma zoomIn_le (z : Number) :
  is_nan z = false -> leb (WebView.zoomIn_ z) WebView.ZOOM_MAX = true.
Proof.
  intros H. apply Math_min_le; [reflexivity | apply add_step_not_nan, H].
Qed.

Lemma zoomOut_ge (z : Number) :
  is_nan z = false -> leb WebView.ZOOM_MIN (WebView.zoomOut_ z) = true.
Proof.
  intros H. apply Math_max_ge; [reflexivity | apply sub_step_not_nan, H].
Qed.
(** The constants of the zoom, as binary64 values: [0.5], [2], and the
    double nearest to [0.1], which is [0x3FB999999999999A]. *)
Example zoom_constants :
  WebView.ZOOM_MIN = S754_finite false 4503599627370496 (-53) /\
  WebView.ZOOM_MAX = S754_finite false 4503599627370496 (-51) /\
  WebView.ZOOM_STEP = S754_finite false 7205759403792794 (-56).
Proof. repeat split. Qed.

(** [1 + 0.1 + 0.1] is [1.2000000000000002], and [zoomIn] stops at [2]. *)
Example zoomIn_twice :
  WebView.zoomIn_ (WebView.zoomIn_ (Js.of_Z 1)) =
  S754_finite false 5404319552844596 (-52) /\
  WebView.zoomIn_ WebView.ZOOM_MAX = WebView.ZOOM_MAX.
Proof. split; reflexivity. Qed.
End Numbers.

(** ** Transitions of the record *)

Section Transitions.
Import Js WebView.

(** What the merges of the source compute. A declared field that is set
    to [undefined] takes its default, so none of them throws. *)
Lemma persistent_value (s : WebView) :
  persistent s =
  Ok {| id := id s;
        userInput := userInput s;
        zoom := zoom s;
        readyState := None;
        isLoading := false;
        isConnecting := false;
        startLoadingTime := Js.of_Z (-1);
        connectedTime := Js.of_Z (-1);
        endLoadingTime := Js.of_Z (-1);
        isFocused := isFocused s;
        isActive := isActive s;
        isSelected := isSelected s;
        isPinned := isPinned s;
        uri := uri s;
        title := None;
        icons := icons s;
        meta := meta s;
        backgroundColor := None;
        foregroundColor := None;
        isDark := false;
        securityState := "insecure";
        securityExtendedValidation := false;
        canGoBack := false;
        canGoForward := false;
        contentOverflows := contentOverflows s;
        thumbnail := None |}.
Proof. destruct s. reflexivity. Qed.

Lemma startLoad_value (now : Js.Number) (s : WebView) :
  startLoad now s =
  Ok {| id := id s;
        userInput := userInput s;
        zoom := zoom s;
        readyState := Some "loading";
        isLoading := true;
        isConnecting := true;
        startLoadingTime := now;
        connectedTime := connectedTime s;
        endLoadingTime := endLoadingTime s;
        isFocused := isFocused s;
        isActive := isActive s;
        isSelected := isSelected s;
        isPinned := isPinned s;
        uri := uri s;
        title := None;
        icons := Undefined;
        meta := meta s;
        backgroundColor := backgroundColor s;
        foregroundColor := foregroundColor s;
        isDark := isDark s;
        securityState := "insecure";
        securityExtendedValidation := false;
        canGoBack := false;
        canGoForward := false;
        contentOverflows := contentOverflows s;
        thumbnail := None |}.
Proof. destruct s. reflexivity. Qed.

Lemma endLoad_value (now : Js.Number) (s : WebView) :
  endLoad now s =
  Ok {| id := id s;
        userInput := userInput s;
        zoom := zoom s;
        readyState := Some "loaded";
        isLoading := false;
        isConnecting := false;
        startLoadingTime := startLoadingTime s;
        connectedTime := connectedTime s;
        endLoadingTime := now;
        isFocused := isFocused s;
        isActive := isActive s;
        isSelected := isSelected s;
        isPinned := isPinned s;
        uri := uri s;
        title := title s;
        icons := icons s;
        meta := meta s;
        backgroundColor := backgroundColor s;
        foregroundColor := foregroundColor s;
        isDark := isDark s;
        securityState := securityState s;
        securityExtendedValidation := securityExtendedValidation s;
        canGoBack := canGoBack s;
        canGoForward := canGoForward s;
        contentOverflows := contentOverflows s;
        thumbnail := thumbnail s |}.
Proof. destruct s. reflexivity. Qed.

(** Setting the zoom changes the zoom and nothing else. *)
Lemma set_zoom (z : Js.Number) (s : WebView) :
  exists s', set_ "zoom" (Num z) s = Ok s' /\ zoom s' = z.
Proof. destruct s. eexists. split; reflexivity. Qed.

Lemma zoomIn_zoom (s : WebView) :
  exists s', zoomIn s = Ok s' /\ zoom s' = zoomIn_ (zoom s).
Proof. unfold zoomIn. generalize (zoomIn_ (zoom s)). intros z. apply set_zoom. Qed.

Lemma zoomOut_zoom (s : WebView) :
  exists s', zoomOut s = Ok s' /\ zoom s' = zoomOut_ (zoom s).
Proof. unfold zoomOut. generalize (zoomOut_ (zoom s)). intros z. apply set_zoom. Qed.

Lemma chain_S (f : WebView -> Result WebView) (n : nat) (s s1 : WebView) :
  f s = Ok s1 -> chain f (S n) s = chain f n s1.
Proof. intros E. cbn [chain]. rewrite E. reflexivity. Qed.

(** A chain of [zoomIn] keeps the zoom at or below [ZOOM_MAX]. *)
Lemma chain_zoomIn (n : nat) : forall s,
  Js.leb (zoom s) ZOOM_MAX = true ->
  exists s', chain zoomIn n s = Ok s' /\ Js.leb (zoom s') ZOOM_MAX = true.
Proof.
  induction n as [|n IH]; intros s H.
  - exists s. split; [reflexivity | exact H].
  - destruct (zoomIn_zoom s) as [s1 [E1 Z1]].
    rewrite (chain_S _ _ _ _ E1).
    apply IH. rewrite Z1. apply zoomIn_le.
    apply (leb_not_nan _ _ H).
Qed.

(** A chain of [zoomOut] keeps the zoom at or above [ZOOM_MIN]. *)
Lemma chain_zoomOut (n : nat) : forall s,
  Js.leb ZOOM_MIN (zoom s) = true ->
  exists s', chain zoomOut n s = Ok s' /\ Js.leb ZOOM_MIN (zoom s') = true.
Proof.
  induction n as [|n IH]; intros s H.
  - exists s. split; [reflexivity | exact H].
  - destruct (zoomOut_zoom s) as [s1 [E1 Z1]].
    rewrite (chain_S _ _ _ _ E1).
    apply IH. rewrite Z1. apply zoomOut_ge.
    apply (leb_not_nan _ _ H).
Qed.

(** C3. [startLoad] returns a state that is loading and connecting, with
    [readyState] ['loading'] and [startLoadingTime] the reading of the
    clock, and in which the fields of the previous page are cleared:
    [icons] is [undefined], [thumbnail] and [title] are [null], and
    [securityState], [securityExtendedValidation], [canGoBack] and
    [canGoForward] are back at ['insecure'] and [false]. *)
Theorem startLoad_spec (now : Js.Number) (s : WebView) :
  exists s',
    startLoad now s = Ok s' /\
    isLoading s' = true /\
    isConnecting s' = true /\
    readyState s' = Some "loading" /\
    startLoadingTime s' = now /\
    icons s' = Undefined /\
    thumbnail s' = None /\
    title s' = None /\
    securityState s' = "insecure" /\
    securityExtendedValidation s' = false /\
    canGoBack s' = false /\
    canGoForward s' = false.
Proof.
  eexists. split; [apply startLoad_value|].
  simpl. repeat split.
Qed.

(** C4. [startLoad] followed by [endLoad] leaves a state that is neither
    loading nor connecting, with [readyState] ['loaded'] and
    [endLoadingTime >= startLoadingTime], the clock read by [endLoad]
    being not before the clock read by [startLoad]. *)
Theorem startLoad_endLoad (t0 t1 : Js.Number) (s : WebView) :
  Js.leb t0 t1 = true ->
  exists s1 s2,
    startLoad t0 s = Ok s1 /\
    endLoad t1 s1 = Ok s2 /\
    isLoading s2 = false /\
    isConnecting s2 = false /\
    readyState s2 = Some "loaded" /\
    Js.leb (startLoadingTime s2) (endLoadingTime s2) = true.
Proof.
  intros Hclock. do 2 eexists.
  split; [apply startLoad_value|].
  split; [apply endLoad_value|].
  simpl. repeat split. exact Hclock.
Qed.

Lemma startLoad_endLoad_witness :
  Js.leb (Js.of_Z 5) (Js.of_Z 7) = true /\
  exists s1 s2,
    startLoad (Js.of_Z 5) (blank "a") = Ok s1 /\
    endLoad (Js.of_Z 7) s1 = Ok s2 /\
    isLoading s2 = false /\
    isConnecting s2 = false /\
    readyState s2 = Some "loaded" /\
    Js.leb (startLoadingTime s2) (endLoadingTime s2) = true.
Proof.
  split; [reflexivity|].
  apply (startLoad_endLoad (Js.of_Z 5) (Js.of_Z 7) (blank "a")).
  reflexivity.
Defined.

(** C5, as worded, fails: applied with the argument [6] when the clock
    reads [7], [changeProgress] stores [7]. *)
Lemma changeProgress_ignores_argument :
  isConnecting connecting = true /\
  ~ stamps_argument (Num (Js.of_Z 6)) (Js.of_Z 7) connecting.
Proof.
  split; [reflexivity|].
  intros [s' [E [_ H]]]. vm_compute in E.
  injection E as <-. discriminate H.
Qed.

(** C5, amended. On a state that is connecting, [changeProgress] of any
    argument clears [isConnecting] and stores in [connectedTime] the
    reading of the clock at the time it is applied; the other fields are
    unchanged. *)
Theorem changeProgress_connecting (argument : Value) (now : Js.Number)
    (s : WebView) :
  isConnecting s = true ->
  changeProgress argument now s =
  Ok {| id := id s;
        userInput := userInput s;
        zoom := zoom s;
        readyState := readyState s;
        isLoading := isLoading s;
        isConnecting := false;
        startLoadingTime := startLoadingTime s;
        connectedTime := now;
        endLoadingTime := endLoadingTime s;
        isFocused := isFocused s;
        isActive := isActive s;
        isSelected := isSelected s;
        isPinned := isPinned s;
        uri := uri s;
        title := title s;
        icons := icons s;
        meta := meta s;
        backgroundColor := backgroundColor s;
        foregroundColor := foregroundColor s;
        isDark := isDark s;
        securityState := securityState s;
        securityExtendedValidation := securityExtendedValidation s;
        canGoBack := canGoBack s;
        canGoForward := canGoForward s;
        contentOverflows := contentOverflows s;
        thumbnail := thumbnail s |}.
Proof.
  intros H. unfold changeProgress. rewrite H.
  destruct s. reflexivity.
Qed.

Lemma changeProgress_connecting_witness :
  isConnecting connecting = true /\
  exists s',
    changeProgress (Num (Js.of_Z 6)) (Js.of_Z 7) connecting = Ok s' /\
    isConnecting s' = false /\
    connectedTime s' = Js.of_Z 7.
Proof.
  split; [reflexivity|].
  eexists. split.
  - apply (changeProgress_connecting (Num (Js.of_Z 6)) (Js.of_Z 7) connecting).
    reflexivity.
  - split; reflexivity.
Defined.

(** C6. On a state that is not connecting, [changeProgress] returns the
    state it is given, whatever its argument and the clock. *)
Theorem changeProgress_not_connecting (argument : Value) (now : Js.Number)
    (s : WebView) :
  isConnecting s = false -> changeProgress argument now s = Ok s.
Proof.
  intros H. unfold changeProgress. rewrite H. reflexivity.
Qed.

Lemma changeProgress_not_connecting_witness :
  isConnecting (blank "a") = false /\
  changeProgress (Num (Js.of_Z 6)) (Js.of_Z 7) (blank "a") = Ok (blank "a").
Proof.
  split; [reflexivity|].
  apply (changeProgress_not_connecting _ _ (blank "a")).
  reflexivity.
Defined.

(** C7. From a zoom within [[0.5, 2]], any number of [zoomIn] leaves a
    zoom that is at most [2] and any number of [zoomOut] a zoom that is
    at least [0.5]; [zoomReset] of any state has zoom [1]. *)
Theorem zoom_bounds (s : WebView) :
  (Js.leb ZOOM_MIN (zoom s) = true ->
   Js.leb (zoom s) ZOOM_MAX = true ->
   forall n,
     (exists s', chain zoomIn n s = Ok s' /\
                 Js.leb (zoom s') ZOOM_MAX = true) /\
     (exists s', chain zoomOut n s = Ok s' /\
                 Js.leb ZOOM_MIN (zoom s') = true)) /\
  (exists s', zoomReset s = Ok s' /\ zoom s' = Js.of_Z 1).
Proof.
  split.
  - intros Hmin Hmax n. split.
    + apply chain_zoomIn, Hmax.
    + apply chain_zoomOut, Hmin.
  - destruct s. eexists. split; reflexivity.
Qed.

Lemma zoom_bounds_witness :
  (exists s', chain zoomIn 12 (blank "a") = Ok s' /\
              Js.leb (zoom s') ZOOM_MAX = true) /\
  (exists s', chain zoomOut 12 (blank "a") = Ok s' /\
              Js.leb ZOOM_MIN (zoom s') = true).
Proof.
  apply (proj1 (zoom_bounds (blank "a"))); reflexivity.
Defined.

(** C8. The persistent projection is idempotent. *)
Theorem persistent_idempotent (s : WebView) :
  exists p, persistent s = Ok p /\ persistent p = Ok p.
Proof.
  eexists. split; [apply persistent_value|].
  rewrite persistent_value. reflexivity.
Qed.

(** C10. The persistent projection does not remove fields: it puts the
    transient ones back at the defaults of the record declaration and
    leaves the others as they are. *)
Theorem persistent_resets_to_defaults (s : WebView) :
  exists p,
    persistent s = Ok p /\
    (securityState p = "insecure" /\
     isLoading p = false /\ isConnecting p = false /\ isDark p = false /\
     securityExtendedValidation p = false /\
     canGoBack p = false /\ canGoForward p = false /\
     startLoadingTime p = Js.of_Z (-1) /\
     connectedTime p = Js.of_Z (-1) /\
     endLoadingTime p = Js.of_Z (-1) /\
     thumbnail p = None /\ readyState p = None /\ title p = None /\
     backgroundColor p = None /\ foregroundColor p = None) /\
    (id p = id s /\ userInput p = userInput s /\ zoom p = zoom s /\
     uri p = uri s /\ icons p = icons s /\ meta p = meta s /\
     isFocused p = isFocused s /\ isActive p = isActive s /\
     isSelected p = isSelected s /\ isPinned p = isPinned s /\
     contentOverflows p = contentOverflows s).
Proof.
  eexists. split; [apply persistent_value|].
  simpl. repeat split.
Qed.

End Transitions.

(** ** The order of strings *)

Section StringOrder.

Lemma ascii_compare_refl (a : ascii) : Ascii.compare a a = Eq.
Proof. apply N.compare_refl. Qed.

Lemma ascii_compare_lt_trans (a b c : ascii) :
  Ascii.compare a b = Lt -> Ascii.compare b c = Lt -> Ascii.compare a c = Lt.
Proof.
  unfold Ascii.compare. rewrite !N.compare_lt_iff. apply N.lt_trans.
Qed.

Lemma le_trans (a : string) : forall b c, le a b -> le b c -> le a c.
Proof.
  unfold le, String.leb.
  induction a as [|x a IH]; intros [|y b] [|z c]; simpl; try congruence.
  destruct (Ascii.compare x y) eqn:Exy; try congruence;
    destruct (Ascii.compare y z) eqn:Eyz; try congruence.
  - apply Ascii.compare_eq_iff in Exy, Eyz. subst.
    rewrite ascii_compare_refl. apply IH.
  - apply Ascii.compare_eq_iff in Exy. subst. now rewrite Eyz.
  - apply Ascii.compare_eq_iff in Eyz. subst. now rewrite Exy.
  - now rewrite (ascii_compare_lt_trans _ _ _ Exy Eyz).
Qed.

Lemma not_le (a b : string) : String.leb a b = false -> le b a.
Proof.
  intros H. destruct (String.leb_total a b) as [H'|H'];
    [congruence | exact H'].
Qed.

(** Two sorted lists with the same elements are the same list. *)
Lemma sorted_unique (l1 : list string) : forall l2,
  StronglySorted le l1 -> StronglySorted le l2 -> Permutation l1 l2 ->
  l1 = l2.
Proof.
  induction l1 as [|x l1 IH]; intros l2 S1 S2 P.
  - apply Permutation_nil in P. now subst.
  - destruct l2 as [|y l2].
    + apply Permutation_sym, Permutation_nil in P. discriminate.
    + inversion S1 as [|? ? S1' F1]; subst.
      inversion S2 as [|? ? S2' F2]; subst.
      assert (x = y) as ->.
      { assert (Hx : In x (y :: l2))
          by (apply (Permutation_in _ P); left; reflexivity).
        assert (Hy : In y (x :: l1))
          by (apply (Permutation_in _ (Permutation_sym P)); left;
              reflexivity).
        destruct Hx as [->|Hx]; [reflexivity|].
        destruct Hy as [->|Hy]; [reflexivity|].
        rewrite Forall_forall in F1, F2.
        apply String.leb_antisym; [apply F1, Hy | apply F2, Hx]. }
      f_equal. apply IH; auto. apply (Permutation_cons_inv P).
Qed.

End StringOrder.

(** ** The deck *)

Section SortBy.
Import WebViewBox.
Context {A : Type} (key : A -> string).

Lemma insert_perm (x : A) (l : list A) : Permutation (insert key x l) (x :: l).
Proof.
  induction l as [|y l IH]; simpl.
  - reflexivity.
  - destruct (String.leb (key x) (key y)).
    + reflexivity.
    + rewrite IH. apply perm_swap.
Qed.

Lemma sortBy_perm (l : list A) : Permutation (sortBy key l) l.
Proof.
  induction l as [|x l IH]; simpl.
  - reflexivity.
  - rewrite insert_perm. now constructor.
Qed.

Lemma insert_sorted (x : A) (l : list A) :
  StronglySorted (le_key key) l -> StronglySorted (le_key key) (insert key x l).
Proof.
  induction 1 as [|y l S IH F]; simpl.
  - repeat constructor.
  - destruct (String.leb (key x) (key y)) eqn:E.
    + constructor; [constructor; assumption|].
      constructor; [exact E|].
      eapply Forall_impl; [|exact F].
      intros z Hz. apply (le_trans _ (key y)); [exact E | exact Hz].
    + constructor; [exact IH|].
      apply (Permutation_Forall (Permutation_sym (insert_perm x l))).
      constructor; [apply not_le, E | exact F].
Qed.

Lemma sortBy_sorted (l : list A) : StronglySorted (le_key key) (sortBy key l).
Proof.
  induction l as [|x l IH]; simpl.
  - constructor.
  - apply insert_sorted, IH.
Qed.

Lemma sorted_map (l : list A) :
  StronglySorted (le_key key) l -> StronglySorted le (List.map key l).
Proof.
  induction 1 as [|y l S IH F]; simpl; constructor.
  - exact IH.
  - rewrite Forall_map. exact F.
Qed.

End SortBy.

(** The keys of a sorted list are the sorted keys. *)
Lemma sortBy_keys {A : Type} (key : A -> string) (l : list A) :
  List.map key (WebViewBox.sortBy key l) =
  WebViewBox.sortBy (fun k => k) (List.map key l).
Proof.
  apply sorted_unique.
  - apply sorted_map, sortBy_sorted.
  - apply (sortBy_sorted (fun k : string => k)).
  - rewrite (sortBy_perm (fun k : string => k)).
    apply Permutation_map, sortBy_perm.
Qed.

(** The sorted keys do not depend on the order of the list. *)
Lemma sortBy_keys_perm {A : Type} (key : A -> string) (l1 l2 : list A) :
  Permutation l1 l2 ->
  List.map key (WebViewBox.sortBy key l1) =
  List.map key (WebViewBox.sortBy key l2).
Proof.
  intros P. apply sorted_unique.
  - apply sorted_map, sortBy_sorted.
  - apply sorted_map, sortBy_sorted.
  - apply Permutation_map.
    rewrite !sortBy_perm. exact P.
Qed.

Section Deck.
Import WebViewBox.

Lemma order_render (box : WebViewBox) :
  order (render box) = List.map id (sortBy id (items box)).
Proof.
  unfold order, render. simpl. rewrite List.map_map. reflexivity.
Qed.

Lemma mounted_sorted (children : list Child) :
  StronglySorted le (List.map key children) ->
  StronglySorted le
    (List.map key
       (List.filter
          (fun child =>
             match frame child with Some _ => true | None => false end)
          children)).
Proof.
  induction children as [|c cs IH]; simpl; intros S.
  - constructor.
  - inversion S as [|? ? S' F]; subst.
    destruct (frame c); [|apply IH, S'].
    simpl. constructor; [apply IH, S'|].
    rewrite Forall_forall in *. intros k Hk. apply F.
    rewrite in_map_iff in *. destruct Hk as [c' [<- Hc']].
    exists c'. split; [reflexivity|].
    apply filter_In in Hc'. tauto.
Qed.

(** C9. The children of the deck come in the order of their ids: the
    order of the rendering is the sorted list of the ids of the items,
    it is the same for any other order of the same items, and the
    mounted frames follow it. Items with the ids b, a, c are rendered,
    and mounted, in the order a, b, c. *)
Theorem render_order (box : WebViewBox) :
  order (render box) = sortBy (fun k => k) (List.map id (items box)) /\
  StronglySorted le (order (render box)) /\
  Permutation (order (render box)) (List.map id (items box)) /\
  StronglySorted le (mounted (render box)) /\
  (forall box',
     Permutation (items box) (items box') ->
     order (render box') = order (render box)) /\
  (forall active,
     let element :=
       render {| isActive := active;
                 items := [WebView.page "b" "http://b.org/";
                           WebView.page "a" "http://a.org/";
                           WebView.page "c" "http://c.org/"] |} in
     order element = ["a"; "b"; "c"] /\ mounted element = ["a"; "b"; "c"]).
Proof.
  rewrite order_render.
  split; [apply sortBy_keys|].
  split; [apply sorted_map, sortBy_sorted|].
  split; [apply Permutation_map, sortBy_perm|].
  split.
  - apply mounted_sorted. fold (order (render box)).
    rewrite order_render. apply sorted_map, sortBy_sorted.
  - split.
    + intros box' P. rewrite order_render.
      apply sortBy_keys_perm, Permutation_sym, P.
    + intros active. split; reflexivity.
Qed.

Lemma render_order_witness :
  order (render {| isActive := true;
                   items := [WebView.page "a" "http://a.org/";
                             WebView.page "c" "http://c.org/";
                             WebView.page "b" "http://b.org/"] |}) =
  order (render {| isActive := true;
                   items := [WebView.page "b" "http://b.org/";
                             WebView.page "a" "http://a.org/";
                             WebView.page "c" "http://c.org/"] |}).
Proof.
  destruct (render_order
              {| isActive := true;
                 items := [WebView.page "b" "http://b.org/";
                           WebView.page "a" "http://a.org/";
                           WebView.page "c" "http://c.org/"] |})
    as (_ & _ & _ & _ & H & _).
  apply H. cbn [items]. apply Permutation_sym.
  apply perm_trans with
    (l' := [WebView.page "a" "http://a.org/";
            WebView.page "b" "http://b.org/";
            WebView.page "c" "http://c.org/"]).
  - apply perm_skip, perm_swap.
  - apply perm_swap.
Defined.
End Deck.

(** ** The thumbnail request *)

Section Scan.
Import Js Promise.
Variable select : Turn -> option Outcome.

Lemma scan_skip (pre rest : list Turn) : forall turn,
  Forall (fun e => select e = None) pre ->
  scan select turn (pre ++ rest) = scan select (turn + List.length pre) rest.
Proof.
  induction pre as [|e pre IH]; intros turn H; simpl.
  - now rewrite Nat.add_0_r.
  - inversion H as [|? ? He Hpre]; subst. rewrite He.
    rewrite IH by assumption. f_equal. lia.
Qed.

Lemma scan_ge (rest : list Turn) : forall turn t o,
  scan select turn rest = Some (t, o) -> turn <= t.
Proof.
  induction rest as [|e rest IH]; intros turn t o; simpl.
  - discriminate.
  - destruct (select e).
    + intros [= <- _]. lia.
    + intros H. apply IH in H. lia.
Qed.

(** The accepted event at position [length pre] settles the promise in
    turn [length pre + 1]. *)
Lemma after_hit (pre : list Turn) (e : Turn) (post : list Turn) (o : Outcome) :
  Forall (fun e => select e = None) pre ->
  select e = Some o ->
  after (pre ++ e :: post) 0 select = Some (S (List.length pre), o).
Proof.
  intros Hpre He. unfold after. simpl skipn.
  rewrite scan_skip by assumption. simpl. now rewrite He.
Qed.

(** If neither the first [length pre] events nor the next one are
    accepted, the promise stays pending or settles in a later turn. *)
Lemma after_late (pre : list Turn) (e : Turn) (post : list Turn) :
  Forall (fun e => select e = None) pre ->
  select e = None ->
  match after (pre ++ e :: post) 0 select with
  | None => True
  | Some (t, _) => S (List.length pre) < t
  end.
Proof.
  intros Hpre He. unfold after. simpl skipn.
  rewrite scan_skip by assumption. simpl. rewrite He.
  destruct (scan select _ post) as [[t o]|] eqn:E; [|exact I].
  apply scan_ge in E. lia.
Qed.
End Scan.

Section Request.
Import Js Promise Thumbnail.

Lemma dispatched_none (type : string) (e : Turn) :
  isDomEvent type e = false -> dispatched type e = None.
Proof. destruct e; simpl; try reflexivity. now intros ->. Qed.

Lemma loadedOrFailed_none (e : Turn) :
  isXhr e = false -> loadedOrFailed e = None.
Proof. destruct e; simpl; congruence. Qed.

Lemma quiet_kind (kinds : list (Turn -> bool)) (kind : Turn -> bool)
    (events : list Turn) :
  In kind kinds -> quiet kinds events = true ->
  Forall (fun e => kind e = false) events.
Proof.
  intros Hin Hq. apply Forall_forall. intros e He.
  unfold quiet in Hq. rewrite forallb_forall in Hq.
  specialize (Hq e He). apply negb_true_iff in Hq.
  destruct (kind e) eqn:E; [|reflexivity].
  assert (existsb (fun k => k e) kinds = true)
    by (apply existsb_exists; exists kind; auto).
  congruence.
Qed.

Lemma quiet_dispatched kinds type events :
  In (isDomEvent type) kinds -> quiet kinds events = true ->
  Forall (fun e => dispatched type e = None) events.
Proof.
  intros Hin Hq. eapply Forall_impl; [|apply (quiet_kind _ _ _ Hin Hq)].
  intros e. apply dispatched_none.
Qed.

Lemma quiet_loadedOrFailed kinds events :
  In isXhr kinds -> quiet kinds events = true ->
  Forall (fun e => loadedOrFailed e = None) events.
Proof.
  intros Hin Hq. eapply Forall_impl; [|apply (quiet_kind _ _ _ Hin Hq)].
  intros e. apply loadedOrFailed_none.
Qed.

(** [abort]: the promise of the event, rejected with the event. *)
Lemma then_reject (now : nat) (p : Promise) :
  then_ now p (fun t event => ret (reject t event)) =
  (match observe now p with
   | Some (t, Fulfilled event) => Some (t, Rejected event)
   | other => other
   end, []).
Proof.
  unfold then_. destruct (observe now p) as [[t [v|r]]|]; try reflexivity.
  simpl. unfold reject. now rewrite Nat.max_id.
Qed.

(** A race that [abort] enters already rejected, or rejected in the turn
    of the race, is lost to it. *)
Lemma race_abort_first (now t : nat) (reason : Value) (p : Promise) :
  t <= now ->
  race now [Some (t, Rejected reason); p] = Some (now, Rejected reason).
Proof.
  intros H. unfold race. simpl.
  replace (Nat.max now t) with now by lia.
  destruct p as [[t' o']|]; simpl; [|reflexivity].
  destruct (Nat.leb_spec now (Nat.max now t')); [reflexivity | lia].
Qed.

(** C1. If the tile request answers with status 200 and the response [B]
    before any change of location, the thumbnail request resolves with
    [B], in the turn of the answer, and asks for no screenshot in any
    turn of the run. *)
Theorem cached_thumbnail_is_result
    (pre : list Turn) (statusText : string) (B : Value) (post : list Turn) :
  quiet [isXhr; isDomEvent "mozbrowserlocationchange"] pre = true ->
  requestThumbnail (pre ++ XhrLoad 200 statusText B :: post) 0 =
  (Some (S (List.length pre), Fulfilled B), []).
Proof.
  intros Hq. unfold requestThumbnail.
  rewrite then_reject.
  assert (Hfetch : fetchThumbnail (pre ++ XhrLoad 200 statusText B :: post) 0
                   = Some (S (List.length pre), Fulfilled B)).
  { apply after_hit; [|reflexivity].
    eapply quiet_loadedOrFailed; [|exact Hq]. simpl; auto. }
  assert (Hlate :
            match fromEvent (pre ++ XhrLoad 200 statusText B :: post) 0
                    "mozbrowserlocationchange" with
            | None => True
            | Some (t, _) => S (List.length pre) < t
            end).
  { apply after_late; [|reflexivity].
    eapply quiet_dispatched; [|exact Hq]. simpl; auto. }
  destruct (fromEvent _ 0 "mozbrowserlocationchange")
    as [[t o]|]; unfold bind, catch_; rewrite Hfetch; simpl.
  - assert (E : Nat.leb t (S (List.length pre)) = false)
      by (apply Nat.leb_gt; exact Hlate).
    destruct o; unfold race; simpl; rewrite E; reflexivity.
  - reflexivity.
Qed.

Lemma observe_0 (p : Promise) : observe 0 p = p.
Proof. destruct p as [[t o]|]; reflexivity. Qed.

Lemma observe_same (t : nat) (o : Outcome) :
  observe t (Some (t, o)) = Some (t, o).
Proof. unfold observe. now rewrite Nat.max_id. Qed.

Lemma race_0_abort (t t' : nat) (reason : Value) (o : Outcome) :
  t <= t' ->
  race 0 [Some (t, Rejected reason); Some (t', o)] =
  Some (t, Rejected reason).
Proof.
  intros H. unfold race. simpl.
  destruct (Nat.leb_spec t t'); [reflexivity | lia].
Qed.

(** A change of location that comes before the answer of the tile request
    rejects the thumbnail request, whatever follows, and no screenshot is
    asked for. *)
Lemma navigation_first
    (pre : list Turn) (detail : Value) (post : list Turn) :
  quiet [isXhr; isDomEvent "mozbrowserlocationchange"] pre = true ->
  requestThumbnail
    (pre ++ DomEvent "mozbrowserlocationchange" detail :: post) 0 =
  (Some (S (List.length pre),
         Rejected (eventObject "mozbrowserlocationchange" detail)), []).
Proof.
  intros Hq. unfold requestThumbnail.
  set (run := pre ++ DomEvent "mozbrowserlocationchange" detail :: post).
  set (event := eventObject "mozbrowserlocationchange" detail).
  rewrite then_reject, observe_0.
  assert (Habort : fromEvent run 0 "mozbrowserlocationchange"
                   = Some (S (List.length pre), Fulfilled event)).
  { apply after_hit; [|reflexivity].
    eapply quiet_dispatched; [|exact Hq]. simpl; auto. }
  assert (Hlate : match fetchThumbnail run 0 with
                  | None => True
                  | Some (t, _) => S (List.length pre) < t
                  end).
  { apply after_late; [|reflexivity].
    eapply quiet_loadedOrFailed; [|exact Hq]. simpl; auto. }
  rewrite Habort. generalize (fromEvent run 0 "mozbrowserloadend").
  intros loaded. unfold bind at 1.
  unfold catch_. rewrite observe_0.
  destruct (fetchThumbnail run 0) as [[t [v|r]]|].
  - unfold bind, ret, resolve. rewrite race_0_abort by lia. reflexivity.
  - rewrite race_abort_first by lia.
    unfold then_. rewrite observe_same.
    unfold bind, ret, reject. rewrite observe_same.
    rewrite race_0_abort by lia. reflexivity.
  - reflexivity.
Qed.

Section Caller.
Variable createObjectURL : Value -> string.
Variable getHardcodedColors : Value -> list (string * Value).

(** A rejected request runs no handler: no edit is made for it. *)
Lemma rejected_is_dropped (run : list Turn) (t : nat) (reason : Value) :
  requestThumbnail run 0 = (Some (t, Rejected reason), []) ->
  thumbnailChange createObjectURL run 0 = (Some (t, Rejected reason), []).
Proof.
  intros H. unfold thumbnailChange. rewrite H. reflexivity.
Qed.

(** A request resolved with a blob runs the handler of the thumbnail, in
    the turn it is resolved: the edit stores the URL of the blob. *)
Lemma resolved_is_applied (run : list Turn) (t : nat) (blob : Value) :
  requestThumbnail run 0 = (Some (t, Fulfilled blob), []) ->
  exists transition,
    thumbnailChange createObjectURL run 0 =
      (Some (t, Fulfilled Undefined), [(t, Edit transition)]) /\
    forall s, exists s',
      transition s = Ok s' /\
      WebView.thumbnail s' = Some (createObjectURL blob).
Proof.
  intros H. unfold thumbnailChange. rewrite H.
  eexists. split.
  - unfold bind, then_, observe. cbn [Nat.max]. cbn.
    rewrite Nat.max_id. reflexivity.
  - intros s. destruct s. eexists. split; reflexivity.
Qed.

(** C2. If the location changes before the tile request is answered and
    before the load ends, the thumbnail request is rejected with the event,
    in the turn of the event: it has no result. No screenshot is asked for
    in any turn of the run. The handler of the thumbnail never runs, so the
    request edits nothing and leaves every state as it is; the only edit of
    the handler that made the request is its own [changeLocation]. The
    rejection stays in the promise that the handler drops. *)
Theorem navigation_cancels_request
    (pre : list Turn) (detail' : Value) (post : list Turn)
    (detail : Value) (s : WebView.WebView) :
  quiet [isXhr; isDomEvent "mozbrowserlocationchange";
         isDomEvent "mozbrowserloadend"] pre = true ->
  let run := pre ++ DomEvent "mozbrowserlocationchange" detail' :: post in
  let cancelled :=
    Some (S (List.length pre),
          Rejected (eventObject "mozbrowserlocationchange" detail')) in
  let request := thumbnailChange createObjectURL run 0 in
  requestThumbnail run 0 = (cancelled, []) /\
  fst request = cancelled /\
  screenshots (effects request) = 0 /\
  applyEdits (effects request) s = Ok s /\
  effects (onLocationChange createObjectURL getHardcodedColors run 0 detail) =
    [(0, Edit (changeLocation getHardcodedColors detail))].
Proof.
  intros Hq run cancelled request.
  assert (Hq' : quiet [isXhr; isDomEvent "mozbrowserlocationchange"] pre
                = true).
  { unfold quiet in *. rewrite forallb_forall in *.
    intros e He. specialize (Hq e He).
    rewrite negb_true_iff in *. simpl in *.
    destruct (isXhr e); [discriminate|].
    destruct (isDomEvent "mozbrowserlocationchange" e);
      [discriminate | reflexivity]. }
  pose proof (navigation_first pre detail' post Hq') as Hreq.
  fold run in Hreq. fold cancelled in Hreq.
  pose proof (rejected_is_dropped run _ _ Hreq) as Hdrop.
  fold request in Hdrop.
  split; [exact Hreq|].
  unfold onLocationChange. fold request. rewrite Hdrop.
  repeat split.
Qed.
End Caller.

Lemma cached_thumbnail_is_result_witness :
  requestThumbnail
    [DomEvent "mozbrowserloadstart" Undefined;
     XhrLoad 200 "OK" (Str "tile");
     DomEvent "mozbrowserloadend" Undefined;
     DomEvent "mozbrowserlocationchange" (Str "http://b.org/")] 0 =
  (Some (2, Fulfilled (Str "tile")), []).
Proof.
  apply (cached_thumbnail_is_result
           [DomEvent "mozbrowserloadstart" Undefined] "OK" (Str "tile")
           [DomEvent "mozbrowserloadend" Undefined;
            DomEvent "mozbrowserlocationchange" (Str "http://b.org/")]).
  reflexivity.
Defined.

Lemma navigation_cancels_request_witness :
  requestThumbnail
    [DomEvent "mozbrowserloadstart" Undefined;
     DomEvent "mozbrowserlocationchange" (Str "http://b.org/");
     XhrLoad 404 "Not Found" Null;
     DomEvent "mozbrowserloadend" Undefined;
     RequestSuccess (Str "shot")] 0 =
  (Some (2, Rejected (eventObject "mozbrowserlocationchange"
                        (Str "http://b.org/"))), []).
Proof.
  apply (navigation_cancels_request
           (fun _ => "blob:1") (fun _ => [])
           [DomEvent "mozbrowserloadstart" Undefined]
           (Str "http://b.org/")
           [XhrLoad 404 "Not Found" Null;
            DomEvent "mozbrowserloadend" Undefined;
            RequestSuccess (Str "shot")]
           (Str "http://a.org/") (WebView.blank "a")).
  reflexivity.
Defined.

(** A tile that is not found, the end of the load, then the screenshot: the
    request resolves with the screenshot, asked for in the turn of the end
    of the load. *)
Example screenshot_after_load :
  requestThumbnail
    [XhrLoad 404 "Not Found" Null;
     DomEvent "mozbrowserloadend" Undefined;
     RequestSuccess (Str "shot")] 0 =
  (Some (3, Fulfilled (Str "shot")), [(2, GetScreenshot)]).
Proof. reflexivity. Qed.
End Request.


(** ** Fields of the record: [set], [patch] and the setters *)

Section Fields.
Import Js WebView.

Lemma known_field (key : string) :
  existsb (String.eqb key) fields = true -> In key fields.
Proof.
  intros H. apply existsb_exists in H. destruct H as [k [Hin Hk]].
  apply String.eqb_eq in Hk. now subst.
Qed.

Lemma unknown_field (key : string) :
  ~ In key fields -> existsb (String.eqb key) fields = false.
Proof.
  intros H. destruct (existsb (String.eqb key) fields) eqn:E;
    [|reflexivity].
  elim H. apply known_field, E.
Qed.

Lemma set_known (key : string) (value : Value) (s s' : WebView) :
  set_ key value s = Ok s' -> In key fields.
Proof.
  intros H. apply known_field. unfold set_ in H.
  destruct (existsb (String.eqb key) fields); [reflexivity|].
  discriminate H.
Qed.

(** What a successful [set] leaves in every field: the field that is set
    holds the value, or its default if the value is [undefined]; the other
    fields hold what they held. *)
Lemma set_get (key : string) (value : Value) (s s' : WebView) :
  set_ key value s = Ok s' ->
  forall k,
    get k s' =
    if String.eqb k key
    then match value with
         | Undefined => get key (blank "")
         | _ => value
         end
    else get k s.
Proof.
  intros H. pose proof (set_known _ _ _ _ H) as Hin.
  unfold fields in Hin. simpl in Hin.
  repeat (destruct Hin as [<-|Hin]); try contradiction;
    destruct s; destruct value; cbv in H; try discriminate H;
    injection H as <-; intros k; unfold get;
    match goal with
    | |- _ = if String.eqb ?x ?f then _ else _ =>
        destruct (String.eqb x f) eqn:E;
        [apply String.eqb_eq in E; subst x; cbv | ]
    end; reflexivity.
Qed.

Lemma set_unknown (key : string) (value : Value) (s : WebView) :
  ~ In key fields -> set_ key value s = Throw "Cannot set unknown field".
Proof.
  intros H. unfold set_. rewrite (unknown_field _ H). reflexivity.
Qed.

Lemma merge_cons (key : string) (value : Value)
    (rest : list (string * Value)) (s : WebView) :
  merge_ ((key, value) :: rest) s =
  match set_ key value s with
  | Ok s1 => merge_ rest s1
  | Throw m => Throw m
  end.
Proof. reflexivity. Qed.

(** X1. A patch that names a field the record does not declare throws,
    whatever else it sets. *)
Theorem patch_unknown_field_throws
    (delta : list (string * Value)) (key : string) (value : Value) :
  In (key, value) delta -> ~ In key fields ->
  forall s, exists message, patch delta s = Throw message.
Proof.
  unfold patch. intros Hin Hkey.
  induction delta as [|[k v] rest IH]; intros s.
  - contradiction.
  - rewrite merge_cons. destruct Hin as [[= -> ->]|Hin].
    + rewrite (set_unknown _ _ _ Hkey). eexists. reflexivity.
    + destruct (set_ k v s) as [s1|m].
      * apply IH, Hin.
      * eexists. reflexivity.
Qed.

Lemma patch_unknown_field_throws_witness :
  exists message,
    patch [("title", Str "a"); ("favicon", Str "b")] (blank "a") =
    Throw message.
Proof.
  apply (patch_unknown_field_throws
           [("title", Str "a"); ("favicon", Str "b")] "favicon" (Str "b")).
  - right. left. reflexivity.
  - unfold fields. simpl. intros H.
    repeat (destruct H as [H|H]; [discriminate H|]). exact H.
Defined.

(** X2. A patch that succeeds changes no field but those it names. *)
Theorem patch_frame (delta : list (string * Value)) : forall s s',
  patch delta s = Ok s' ->
  forall k, ~ In k (List.map fst delta) -> get k s' = get k s.
Proof.
  unfold patch.
  induction delta as [|[key value] rest IH]; intros s s' H k Hk.
  - injection H as <-. reflexivity.
  - rewrite merge_cons in H.
    destruct (set_ key value s) as [s1|m] eqn:E; [|discriminate H].
    simpl in Hk.
    rewrite (IH _ _ H k) by tauto.
    rewrite (set_get _ _ _ _ E k).
    destruct (String.eqb k key) eqn:Ek; [|reflexivity].
    apply String.eqb_eq in Ek. subst. tauto.
Qed.

Lemma patch_frame_witness :
  get "uri" (orElse (reload (page "a" "http://a.org/")) (blank "a")) =
  get "uri" (page "a" "http://a.org/").
Proof.
  apply (patch_frame [("readyState", Str "reload")]
           (page "a" "http://a.org/")).
  - reflexivity.
  - simpl. intros [H|H]; [discriminate H | exact H].
Defined.

(** X3. Reading a field after setting it: a value other than [undefined]
    that the field accepts is read back as it was given; [undefined] is
    read back as the default of the field, the one of a new view; and the
    [id], which has no default, cannot be set to [undefined]. *)
Theorem set_then_get (field : string) (value : Value) (s s' : WebView) :
  set field value s = Ok s' ->
  (value <> Undefined -> get field s' = value) /\
  (value = Undefined ->
   get field s' = get field (blank (id s)) /\ field <> "id").
Proof.
  unfold set. intros H.
  pose proof (set_get _ _ _ _ H field) as G.
  rewrite String.eqb_refl in G. split.
  - intros Hv. rewrite G. destruct value; congruence.
  - intros ->. split.
    + rewrite G. pose proof (set_known _ _ _ _ H) as Hin.
      unfold fields in Hin. simpl in Hin.
      repeat (destruct Hin as [<-|Hin]); try contradiction;
        try reflexivity.
      destruct s; discriminate H.
    + intros ->. destruct s; discriminate H.
Qed.

Lemma set_then_get_witness :
  get "title" (orElse (setTitle (Str "Home") (blank "a")) (blank "a")) =
  Str "Home".
Proof.
  apply (set_then_get "title" (Str "Home") (blank "a")).
  - reflexivity.
  - discriminate.
Defined.
End Fields.

(** ** More on the transitions *)

Section MoreTransitions.
Import Js WebView.

(** X4. [setTitle] accepts a string, and [null] or [undefined], which
    clear the title; it throws on any other value. No other field
    changes. *)
Theorem setTitle_checks_type (value : Value) (s : WebView) :
  match value with
  | Str _ | Null | Undefined =>
      exists s',
        setTitle value s = Ok s' /\
        title s' = match value with Str t => Some t | _ => None end /\
        forall k, k <> "title" -> get k s' = get k s
  | _ => exists message, setTitle value s = Throw message
  end.
Proof.
  assert (F : forall s', setTitle value s = Ok s' ->
                forall k, k <> "title" -> get k s' = get k s).
  { intros s' H k Hk. rewrite (set_get _ _ _ _ H k).
    apply String.eqb_neq in Hk. now rewrite Hk. }
  destruct value; try (destruct s; eexists; reflexivity);
    (eexists; split; [destruct s; reflexivity|]);
    (split; [reflexivity|]); apply F; destruct s; reflexivity.
Qed.

(** X5. [setCanGoBack], [setCanGoForward] and [setContentOverflows] store
    a boolean, read [undefined] as [false], and throw on any other value,
    [null] included. *)
Theorem boolean_setters_check_type
    (setter : Value -> WebView -> Result WebView) (field : string)
    (value : Value) (s : WebView) :
  In (setter, field) booleanSetters ->
  match value with
  | Bool b =>
      exists s', setter value s = Ok s' /\ get field s' = Bool b
  | Undefined =>
      exists s', setter value s = Ok s' /\ get field s' = Bool false
  | _ => exists message, setter value s = Throw message
  end.
Proof.
  intros Hin. unfold booleanSetters in Hin. simpl in Hin.
  repeat (destruct Hin as [[= <- <-]|Hin]); try contradiction;
    destruct value, s; eexists; try reflexivity; split; reflexivity.
Qed.

Lemma boolean_setters_check_type_witness :
  exists message, setCanGoBack Null (blank "a") = Throw message.
Proof.
  apply (boolean_setters_check_type setCanGoBack "canGoBack" Null
           (blank "a")).
  left. reflexivity.
Defined.

Lemma command_patch (c : WebView -> Result WebView) :
  In c commands -> exists tag, c = patch [("readyState", Str tag)].
Proof.
  intros Hin. unfold commands in Hin. simpl in Hin.
  repeat (destruct Hin as [<-|Hin]); try contradiction;
    eexists; reflexivity.
Qed.

Lemma patch_readyState (tag : string) (s : WebView) :
  patch [("readyState", Str tag)] s =
  Ok {| id := id s;
        userInput := userInput s;
        zoom := zoom s;
        readyState := Some tag;
        isLoading := isLoading s;
        isConnecting := isConnecting s;
        startLoadingTime := startLoadingTime s;
        connectedTime := connectedTime s;
        endLoadingTime := endLoadingTime s;
        isFocused := isFocused s;
        isActive := isActive s;
        isSelected := isSelected s;
        isPinned := isPinned s;
        uri := uri s;
        title := title s;
        icons := icons s;
        meta := meta s;
        backgroundColor := backgroundColor s;
        foregroundColor := foregroundColor s;
        isDark := isDark s;
        securityState := securityState s;
        securityExtendedValidation := securityExtendedValidation s;
        canGoBack := canGoBack s;
        canGoForward := canGoForward s;
        contentOverflows := contentOverflows s;
        thumbnail := thumbnail s |}.
Proof. destruct s. reflexivity. Qed.

(** X6. Of two commands among [reload], [stop], [goBack] and [goForward]
    the later one wins: applying one after the other gives the state that
    the later one gives alone. A command never throws and changes
    [readyState] only, so the loading flags and times are what they
    were. *)
Theorem commands_last_wins (c1 c2 : WebView -> Result WebView) (s : WebView) :
  In c1 commands -> In c2 commands ->
  exists s1 s2,
    c1 s = Ok s1 /\ c2 s1 = Ok s2 /\ c2 s = Ok s2 /\
    forall k, k <> "readyState" -> get k s2 = get k s.
Proof.
  intros H1 H2.
  destruct (command_patch c1 H1) as [tag1 ->].
  destruct (command_patch c2 H2) as [tag2 ->].
  do 2 eexists.
  split; [apply patch_readyState|].
  split; [rewrite patch_readyState; reflexivity|].
  split; [rewrite patch_readyState; reflexivity|].
  intros k Hk. cbn [id userInput zoom readyState isLoading isConnecting
    startLoadingTime connectedTime endLoadingTime isFocused isActive
    isSelected isPinned uri title icons meta backgroundColor
    foregroundColor isDark securityState securityExtendedValidation
    canGoBack canGoForward contentOverflows thumbnail].
  apply (patch_frame [("readyState", Str tag2)] s);
    [apply patch_readyState|].
  simpl. intros [H|H]; [congruence | exact H].
Qed.

Lemma commands_last_wins_witness :
  exists s1 s2,
    reload (blank "a") = Ok s1 /\ stop s1 = Ok s2 /\
    stop (blank "a") = Ok s2 /\
    forall k, k <> "readyState" -> get k s2 = get k (blank "a").
Proof.
  apply (commands_last_wins reload stop (blank "a")).
  - left. reflexivity.
  - right. left. reflexivity.
Defined.
End MoreTransitions.

(** ** The load cycle *)

Section LoadCycle.
Import Js WebView.

(** X7. After [startLoad], the first [changeProgress] records the time of
    connection and ends the connecting phase, the view still loading; a
    second one returns the state it is given: the time recorded is that
    of the first. *)
Theorem first_progress_only (a1 a2 : Value) (t0 t1 t2 : Js.Number)
    (s : WebView) :
  exists s1 s2,
    startLoad t0 s = Ok s1 /\
    changeProgress a1 t1 s1 = Ok s2 /\
    connectedTime s2 = t1 /\
    isConnecting s2 = false /\
    isLoading s2 = true /\
    changeProgress a2 t2 s2 = Ok s2.
Proof.
  do 2 eexists. split; [apply startLoad_value|].
  split; [destruct s; reflexivity|].
  repeat split.
Qed.

(** X8. A load that ends before any progress was reported never records a
    time of connection: [endLoad] leaves [connectedTime] as it was, and a
    [changeProgress] that comes after it changes nothing. *)
Theorem progress_after_endLoad_ignored (a : Value) (t t' : Js.Number)
    (s : WebView) :
  exists s1,
    endLoad t s = Ok s1 /\
    connectedTime s1 = connectedTime s /\
    changeProgress a t' s1 = Ok s1.
Proof.
  eexists. split; [apply endLoad_value|].
  split; reflexivity.
Qed.

(** X9. [startLoad] does not touch the times of the previous load. While
    a second page loads, [endLoadingTime] is still the end of the first
    load, which is before [startLoadingTime], and [connectedTime] is what
    it was before the first load. *)
Theorem second_load_keeps_old_times (t0 t1 t2 : Js.Number) (s : WebView) :
  Js.ltb t1 t2 = true ->
  exists s1 s2 s3,
    startLoad t0 s = Ok s1 /\ endLoad t1 s1 = Ok s2 /\
    startLoad t2 s2 = Ok s3 /\
    isLoading s3 = true /\
    startLoadingTime s3 = t2 /\
    endLoadingTime s3 = t1 /\
    Js.ltb (endLoadingTime s3) (startLoadingTime s3) = true /\
    connectedTime s3 = connectedTime s.
Proof.
  intros H. do 3 eexists.
  split; [apply startLoad_value|].
  split; [apply endLoad_value|].
  split; [apply startLoad_value|].
  cbn [isLoading startLoadingTime endLoadingTime connectedTime].
  repeat split. exact H.
Qed.

Lemma second_load_keeps_old_times_witness :
  exists s1 s2 s3,
    startLoad (Js.of_Z 1) (blank "a") = Ok s1 /\
    endLoad (Js.of_Z 2) s1 = Ok s2 /\
    startLoad (Js.of_Z 3) s2 = Ok s3 /\
    isLoading s3 = true /\
    startLoadingTime s3 = Js.of_Z 3 /\
    endLoadingTime s3 = Js.of_Z 2 /\
    Js.ltb (endLoadingTime s3) (startLoadingTime s3) = true /\
    connectedTime s3 = connectedTime (blank "a").
Proof.
  apply (second_load_keeps_old_times (Js.of_Z 1) (Js.of_Z 2) (Js.of_Z 3)
           (blank "a")).
  reflexivity.
Defined.

Lemma set_zoom_frame (z : Js.Number) (s s' : WebView) :
  set_ "zoom" (Num z) s = Ok s' ->
  forall k, k <> "zoom" -> get k s' = get k s.
Proof.
  intros H k Hk. rewrite (set_get _ _ _ _ H k).
  apply String.eqb_neq in Hk. now rewrite Hk.
Qed.

(** X10. One step of zoom from any zoom that is a number, within the range
    or not: [zoomIn] gives a zoom of at most [2], [zoomOut] a zoom of at
    least [0.5], and no other field changes. *)
Theorem zoom_step_clamps (s : WebView) :
  is_nan (zoom s) = false ->
  (exists s',
     zoomIn s = Ok s' /\
     Js.leb (zoom s') ZOOM_MAX = true /\
     forall k, k <> "zoom" -> get k s' = get k s) /\
  (exists s',
     zoomOut s = Ok s' /\
     Js.leb ZOOM_MIN (zoom s') = true /\
     forall k, k <> "zoom" -> get k s' = get k s).
Proof.
  intros H. split.
  - destruct (zoomIn_zoom s) as [s' [E Z]]. exists s'.
    split; [exact E|]. split.
    + rewrite Z. apply zoomIn_le, H.
    + apply (set_zoom_frame _ _ _ E).
  - destruct (zoomOut_zoom s) as [s' [E Z]]. exists s'.
    split; [exact E|]. split.
    + rewrite Z. apply zoomOut_ge, H.
    + apply (set_zoom_frame _ _ _ E).
Qed.

Lemma zoom_step_clamps_witness :
  exists s',
    zoomIn (orElse (set_ "zoom" (Num (Js.of_Z 7)) (blank "a")) (blank "a"))
    = Ok s' /\
    Js.leb (zoom s') ZOOM_MAX = true /\
    forall k, k <> "zoom" ->
      get k s' =
      get k (orElse (set_ "zoom" (Num (Js.of_Z 7)) (blank "a")) (blank "a")).
Proof.
  apply (zoom_step_clamps
           (orElse (set_ "zoom" (Num (Js.of_Z 7)) (blank "a")) (blank "a"))).
  reflexivity.
Defined.

(** X11. The record accepts NaN as a zoom, and the steps do not repair it:
    from a zoom that is NaN, [zoomIn] and [zoomOut] return a zoom that is
    NaN again. *)
Theorem zoom_step_keeps_nan (s : WebView) :
  is_nan (zoom s) = true ->
  (exists s', zoomIn s = Ok s' /\ is_nan (zoom s') = true) /\
  (exists s', zoomOut s = Ok s' /\ is_nan (zoom s') = true).
Proof.
  intros H. split.
  - destruct (zoomIn_zoom s) as [s' [E Z]]. exists s'.
    split; [exact E|]. rewrite Z.
    destruct (zoom s); try discriminate H. reflexivity.
  - destruct (zoomOut_zoom s) as [s' [E Z]]. exists s'.
    split; [exact E|]. rewrite Z.
    destruct (zoom s); try discriminate H. reflexivity.
Qed.

Lemma zoom_step_keeps_nan_witness :
  exists s',
    zoomIn (orElse (set_ "zoom" (Num S754_nan) (blank "a")) (blank "a"))
    = Ok s' /\
    is_nan (zoom s') = true.
Proof.
  apply (zoom_step_keeps_nan
           (orElse (set_ "zoom" (Num S754_nan) (blank "a")) (blank "a"))).
  reflexivity.
Defined.
End LoadCycle.

(** ** Location, icons and new views *)

Section Location.
Import Js WebView Thumbnail.
Variable getHardcodedColors : Value -> list (string * Value).

Lemma changeLocation_first (value : string) (s : WebView) :
  merge_ [("uri", Str value);
          ("readyState",
           Str (if isLoading s then "loading" else "loaded"));
          ("userInput", Str value)] s =
  Ok {| id := id s;
        userInput := value;
        zoom := zoom s;
        readyState := Some (if isLoading s then "loading" else "loaded");
        isLoading := isLoading s;
        isConnecting := isConnecting s;
        startLoadingTime := startLoadingTime s;
        connectedTime := connectedTime s;
        endLoadingTime := endLoadingTime s;
        isFocused := isFocused s;
        isActive := isActive s;
        isSelected := isSelected s;
        isPinned := isPinned s;
        uri := Some value;
        title := title s;
        icons := icons s;
        meta := meta s;
        backgroundColor := backgroundColor s;
        foregroundColor := foregroundColor s;
        isDark := isDark s;
        securityState := securityState s;
        securityExtendedValidation := securityExtendedValidation s;
        canGoBack := canGoBack s;
        canGoForward := canGoForward s;
        contentOverflows := contentOverflows s;
        thumbnail := thumbnail s |}.
Proof. destruct s. reflexivity. Qed.

Lemma get_uri s : get "uri" s = ofMaybe (uri s).
Proof. reflexivity. Qed.
Lemma get_userInput s : get "userInput" s = Str (userInput s).
Proof. reflexivity. Qed.
Lemma get_readyState s : get "readyState" s = ofMaybe (readyState s).
Proof. reflexivity. Qed.

Lemma ofMaybe_inj a b : ofMaybe a = ofMaybe b -> a = b.
Proof. destruct a, b; simpl; congruence. Qed.

(** X12. [changeLocation] of a string stores it as [uri] and as
    [userInput] and sets [readyState] from [isLoading]. If the colours of
    the theme name the three colour fields only, these three values are
    in the result and the remaining fields are unchanged. *)
Theorem changeLocation_string (u : string) (s s' : WebView) :
  (forall k, In k (List.map fst (getHardcodedColors (Str u))) ->
             In k ["backgroundColor"; "foregroundColor"; "isDark"]) ->
  changeLocation getHardcodedColors (Str u) s = Ok s' ->
  uri s' = Some u /\
  userInput s' = u /\
  readyState s' = Some (if isLoading s then "loading" else "loaded") /\
  forall k,
    ~ In k ["uri"; "readyState"; "userInput";
            "backgroundColor"; "foregroundColor"; "isDark"] ->
    get k s' = get k s.
Proof.
  intros Hcolours H. unfold changeLocation in H.
  rewrite changeLocation_first in H.
  cbn [Js.bind] in H.
  assert (K : forall k,
            ~ In k ["backgroundColor"; "foregroundColor"; "isDark"] ->
            get k s' = get k _)
    by (intros k Hk; apply (patch_frame _ _ _ H k); intros Hin;
        apply Hk, Hcolours, Hin).
  assert (N : forall k, In k ["uri"; "readyState"; "userInput"] ->
              ~ In k ["backgroundColor"; "foregroundColor"; "isDark"]).
  { intros k Hk Hin. simpl in Hk, Hin.
    repeat (destruct Hk as [<-|Hk]);
      repeat (destruct Hin as [Hin|Hin]; try discriminate Hin);
      assumption. }
  split; [|split; [|split]].
  - apply ofMaybe_inj. rewrite <- get_uri. rewrite K; [reflexivity|].
    apply N. simpl. auto.
  - assert (E : Str (userInput s') = Str u)
      by (rewrite <- get_userInput; rewrite K;
          [reflexivity | apply N; simpl; auto]).
    congruence.
  - apply ofMaybe_inj. rewrite <- get_readyState.
    rewrite K; [reflexivity|]. apply N. simpl. auto.
  - intros k Hk. rewrite K by (simpl in *; tauto).
    unfold get.
    assert (Eu : String.eqb k "uri" = false)
      by (apply String.eqb_neq; intros ->; apply Hk; simpl; auto).
    assert (Ei : String.eqb k "userInput" = false)
      by (apply String.eqb_neq; intros ->; apply Hk; simpl; auto).
    assert (Er : String.eqb k "readyState" = false)
      by (apply String.eqb_neq; intros ->; apply Hk; simpl; auto).
    cbn [id userInput zoom readyState isLoading isConnecting
      startLoadingTime connectedTime endLoadingTime isFocused isActive
      isSelected isPinned uri title icons meta backgroundColor
      foregroundColor isDark securityState securityExtendedValidation
      canGoBack canGoForward contentOverflows thumbnail].
    rewrite Eu, Ei, Er. reflexivity.
Qed.

(** X13. A location that is [null], a boolean, a number or an object is
    refused: [userInput] is a string field, so [changeLocation] throws,
    before the colours are looked at. *)
Theorem changeLocation_not_a_string (value : Value) (s : WebView) :
  (forall u, value <> Str u) -> value <> Undefined ->
  exists message, changeLocation getHardcodedColors value s = Throw message.
Proof.
  intros Hs Hu. unfold changeLocation.
  destruct value; try congruence;
    try (destruct s; eexists; reflexivity).
Qed.
End Location.

Lemma changeLocation_string_witness :
  WebView.uri (WebView.orElse (Thumbnail.changeLocation
                 (fun _ => [("isDark", Js.Bool true)])
                 (Js.Str "http://a.org/") (WebView.blank "a"))
         (WebView.blank "a")) = Some "http://a.org/".
Proof.
  apply (changeLocation_string (fun _ => [("isDark", Js.Bool true)])
           "http://a.org/" (WebView.blank "a")).
  - simpl. intros k [<-|H]; [|contradiction]. right. right. left.
    reflexivity.
  - reflexivity.
Defined.

Lemma changeLocation_not_a_string_witness :
  exists message,
    Thumbnail.changeLocation (fun _ => []) Js.Null (WebView.blank "a") =
    Js.Throw message.
Proof.
  apply (changeLocation_not_a_string (fun _ => []) Js.Null
           (WebView.blank "a")); discriminate.
Defined.

Section Icons.
Import Js WebView.

Lemma prop_Map_set_same (key : string) (value : Value)
    (entries : list (string * Value)) :
  prop key (Map_set key value entries) = value.
Proof.
  induction entries as [|[k v] rest IH]; simpl.
  - now rewrite String.eqb_refl.
  - destruct (String.eqb k key) eqn:E; simpl.
    + now rewrite String.eqb_refl.
    + now rewrite E.
Qed.

Lemma prop_Map_set_other (key other : string) (value : Value)
    (entries : list (string * Value)) :
  other <> key ->
  prop other (Map_set key value entries) = prop other entries.
Proof.
  intros Hne. induction entries as [|[k v] rest IH]; simpl.
  - destruct (String.eqb key other) eqn:E; [|reflexivity].
    apply String.eqb_eq in E. congruence.
  - destruct (String.eqb k key) eqn:E; simpl.
    + apply String.eqb_eq in E. subst k.
      destruct (String.eqb key other) eqn:E'; [|reflexivity].
      apply String.eqb_eq in E'. congruence.
    + now rewrite IH.
Qed.

Lemma Map_set_twice (key : string) (v1 v2 : Value)
    (entries : list (string * Value)) :
  Map_set key v2 (Map_set key v1 entries) = Map_set key v2 entries.
Proof.
  induction entries as [|[k v] rest IH]; simpl.
  - now rewrite String.eqb_refl.
  - destruct (String.eqb k key) eqn:E; simpl.
    + now rewrite String.eqb_refl.
    + now rewrite E, IH.
Qed.

Lemma Map_set_length (key : string) (value : Value)
    (entries : list (string * Value)) :
  In key (List.map fst entries) ->
  List.length (Map_set key value entries) = List.length entries.
Proof.
  induction entries as [|[k v] rest IH]; simpl; [contradiction|].
  intros [->|Hin].
  - now rewrite String.eqb_refl.
  - destruct (String.eqb k key); simpl; [reflexivity|].
    now rewrite IH.
Qed.

Lemma set_icons (value : Value) (s : WebView) :
  exists s', set_ "icons" value s = Ok s' /\ icons s' = value.
Proof. destruct s. eexists. split; reflexivity. Qed.

Lemma set_icons_frame (value : Value) (s s' : WebView) :
  set_ "icons" value s = Ok s' ->
  forall k, k <> "icons" -> get k s' = get k s.
Proof.
  intros H k Hk. rewrite (set_get _ _ _ _ H k).
  apply String.eqb_neq in Hk. now rewrite Hk.
Qed.

Lemma changeIcon_entries (icon : Icon) (s s' : WebView) :
  changeIcon icon s = Ok s' ->
  icons s' = Obj (Map_set (href icon) (iconObject icon) (iconEntries s)) /\
  forall k, k <> "icons" -> get k s' = get k s.
Proof.
  unfold changeIcon, iconEntries. intros H.
  destruct (icons s) as [| |b|n|str|entries] eqn:Ei; simpl in H;
    try discriminate H;
    repeat match type of H with
           | (if ?b then _ else _) = _ => destruct b; try discriminate H
           | match ?n with _ => _ end = _ =>
               destruct n; try discriminate H
           end;
    match type of H with
    | set_ "icons" ?v s = Ok s' =>
        destruct (set_icons v s) as [s2 [E2 I2]];
        assert (s2 = s') by congruence; subst s2;
        split; [exact I2 | apply (set_icons_frame _ _ _ E2)]
    end.
Qed.

(** X14. After [changeIcon], the map of icons gives the icon for its
    [href] and, for any other [href], what it gave before; no field but
    [icons] changes. *)
Theorem changeIcon_lookup (icon : Icon) (s s' : WebView) :
  changeIcon icon s = Ok s' ->
  exists entries,
    icons s' = Obj entries /\
    prop (href icon) entries = iconObject icon /\
    (forall h, h <> href icon -> prop h entries = prop h (iconEntries s)) /\
    forall k, k <> "icons" -> get k s' = get k s.
Proof.
  intros H. destruct (changeIcon_entries _ _ _ H) as [E F].
  eexists. split; [exact E|].
  split; [apply prop_Map_set_same|].
  split; [|exact F].
  intros h Hh. apply prop_Map_set_other, Hh.
Qed.

Lemma ofMaybe_eq (a b : option string) : ofMaybe a = ofMaybe b -> a = b.
Proof. destruct a, b; simpl; congruence. Qed.

(** A state is determined by what [get] returns for its fields. *)
Ltac field_eq H key :=
  let G := fresh "G" in
  pose proof (H key) as G; cbv -[ofMaybe] in G;
  first [apply ofMaybe_eq in G | injection G as G | idtac].

Lemma get_ext (a b : WebView) : (forall k, get k a = get k b) -> a = b.
Proof.
  intros H. destruct a, b.
  field_eq H "id"; field_eq H "userInput"; field_eq H "zoom";
  field_eq H "readyState"; field_eq H "isLoading";
  field_eq H "isConnecting"; field_eq H "startLoadingTime";
  field_eq H "connectedTime"; field_eq H "endLoadingTime";
  field_eq H "isFocused"; field_eq H "isActive"; field_eq H "isSelected";
  field_eq H "isPinned"; field_eq H "uri"; field_eq H "title";
  field_eq H "icons"; field_eq H "meta"; field_eq H "backgroundColor";
  field_eq H "foregroundColor"; field_eq H "isDark";
  field_eq H "securityState"; field_eq H "securityExtendedValidation";
  field_eq H "canGoBack"; field_eq H "canGoForward";
  field_eq H "contentOverflows"; field_eq H "thumbnail".
  clear H.
  subst. reflexivity.
Qed.

(** Where [changeIcon] does not throw it is a [set] of the field. *)
Lemma changeIcon_as_set (icon icon' : Icon) (s s' : WebView) :
  changeIcon icon s = Ok s' ->
  changeIcon icon' s =
  set_ "icons"
    (Obj (Map_set (href icon') (iconObject icon') (iconEntries s))) s.
Proof.
  unfold changeIcon, iconEntries. intros H.
  destruct (icons s) as [| |b|n|str|entries] eqn:Ei; simpl in H |- *;
    try discriminate H; try reflexivity;
    repeat match type of H with
           | (if ?b then _ else _) = _ =>
               destruct b; try discriminate H
           | match ?n with _ => _ end = _ =>
               destruct n; try discriminate H
           end; reflexivity.
Qed.

(** X15. An icon overwrites the icon of the same [href]: two changes for
    one [href] give what the second gives alone, and a change for an
    [href] of the map leaves the number of entries as it is. *)
Theorem changeIcon_overwrites (icon1 icon2 : Icon) (s s1 : WebView) :
  href icon1 = href icon2 ->
  changeIcon icon1 s = Ok s1 ->
  changeIcon icon2 s1 = changeIcon icon2 s /\
  (In (href icon1) (List.map fst (iconEntries s)) ->
   List.length (iconEntries s1) = List.length (iconEntries s)).
Proof.
  intros Hh H1. destruct (changeIcon_entries _ _ _ H1) as [E1 F1].
  split.
  - rewrite (changeIcon_as_set _ icon2 _ _ H1).
    unfold changeIcon. rewrite E1. cbn [truthy].
    rewrite Hh, Map_set_twice.
    set (v := Obj (Map_set (href icon2) (iconObject icon2) (iconEntries s))).
    destruct (set_icons v s1) as [s2 [E2 _]].
    destruct (set_icons v s) as [s3 [E3 _]].
    rewrite E2, E3. f_equal. apply get_ext. intros k.
    rewrite (set_get _ _ _ _ E2 k), (set_get _ _ _ _ E3 k).
    destruct (String.eqb k "icons") eqn:Ek; [reflexivity|].
    apply F1. now apply String.eqb_neq.
  - intros Hin. unfold iconEntries at 1. rewrite E1.
    apply Map_set_length, Hin.
Qed.

(** X16. Where the field holds no map. A falsy value, as the [undefined]
    of a new view, is replaced by the map of the one icon. A truthy value
    that is not a map makes [changeIcon] throw. *)
Theorem changeIcon_without_map (icon : Icon) (s : WebView) :
  (forall entries, icons s <> Obj entries) ->
  if truthy (icons s)
  then exists message, changeIcon icon s = Throw message
  else exists s',
         changeIcon icon s = Ok s' /\
         icons s' = Obj [(href icon, iconObject icon)].
Proof.
  intros Hmap. unfold changeIcon.
  destruct (truthy (icons s)) eqn:T.
  - destruct (icons s); try (eexists; reflexivity).
    elim (Hmap entries). reflexivity.
  - apply set_icons.
Qed.

(** X17. The icons of the page before do not survive a load: after
    [startLoad], the first [changeIcon] leaves a map with that icon
    alone. *)
Theorem first_icon_of_a_load (now : Js.Number) (icon : Icon) (s : WebView) :
  exists s1 s2,
    startLoad now s = Ok s1 /\
    changeIcon icon s1 = Ok s2 /\
    icons s2 = Obj [(href icon, iconObject icon)].
Proof.
  eexists. destruct (set_icons (Obj [(href icon, iconObject icon)])
                       (orElse (startLoad now s) s)) as [s2 [E I]].
  exists s2. split; [apply startLoad_value|].
  rewrite startLoad_value in E. cbn [orElse] in E.
  split; [exact E | exact I].
Qed.
End Icons.

Section IconWitnesses.
Import Js WebView.

Lemma changeIcon_lookup_witness :
  exists entries,
    icons (orElse (changeIcon favicon (blank "a")) (blank "a")) =
      Obj entries /\
    prop (href favicon) entries = iconObject favicon.
Proof.
  destruct (changeIcon_lookup favicon (blank "a")
              (orElse (changeIcon favicon (blank "a")) (blank "a"))
              eq_refl) as [entries [E [P _]]].
  exists entries. split; [exact E | exact P].
Defined.

Lemma changeIcon_overwrites_witness :
  changeIcon favicon'
    (orElse (changeIcon favicon (blank "a")) (blank "a")) =
  changeIcon favicon' (blank "a").
Proof.
  apply (changeIcon_overwrites favicon favicon' (blank "a")); reflexivity.
Defined.

Lemma changeIcon_without_map_witness :
  exists message,
    changeIcon favicon
      (orElse (set_ "icons" (Str "none") (blank "a")) (blank "a")) =
    Throw message.
Proof.
  apply (changeIcon_without_map favicon
           (orElse (set_ "icons" (Str "none") (blank "a")) (blank "a"))).
  discriminate.
Defined.
End IconWitnesses.

(** ** New views *)

Section Open.
Import Js WebView.

Lemma prop_app (key : string) (source target : list (string * Value)) :
  prop key (source ++ target) =
  if existsb (String.eqb key) (List.map fst source)
  then prop key source else prop key target.
Proof.
  induction source as [|[k v] rest IH]; simpl; [reflexivity|].
  rewrite (String.eqb_sym key k).
  destruct (String.eqb k key); simpl; [reflexivity | exact IH].
Qed.

(** The constructor reads the [id] from the structure. *)
Lemma make_id (structure : list (string * Value)) (s : WebView) :
  make structure = Ok s -> prop "id" structure = Str (id s).
Proof.
  unfold make. intros H.
  destruct (prop "id" structure) eqn:E; try discriminate H.
  cbn [Typed.read Type_.id Typed.String Typed.withDefault option_map
       Js.bind] in H.
  repeat match type of H with
         | Js.bind ?r _ = Ok _ =>
             destruct r; cbn [Js.bind] in H; [|discriminate H]
         end.
  injection H as <-. reflexivity.
Qed.

(** X18. [open] gives the generated id to a state that names none, with
    every absent field at its default; an id named by the state replaces
    the generated one; and where the state names an id that is not a
    string, [open] throws. *)
Theorem open_id (uuid : string) (state : list (string * Value)) :
  open uuid [] = Ok (blank uuid) /\
  (forall s,
     open uuid state = Ok s ->
     id s = if existsb (String.eqb "id") (List.map fst state)
            then match prop "id" state with Str i => i | _ => uuid end
            else uuid) /\
  (existsb (String.eqb "id") (List.map fst state) = true ->
   (forall i, prop "id" state <> Str i) ->
   exists message, open uuid state = Throw message).
Proof.
  split; [reflexivity|]. split.
  - intros s H. apply make_id in H.
    unfold Object_assign in H. rewrite prop_app in H.
    destruct (existsb (String.eqb "id") (List.map fst state)).
    + rewrite H. reflexivity.
    + simpl in H. congruence.
  - intros Hin Hid. destruct (open uuid state) as [s|m] eqn:E.
    + apply make_id in E. unfold Object_assign in E.
      rewrite prop_app, Hin in E. elim (Hid _ E).
    + eexists. reflexivity.
Qed.

Lemma open_id_witness :
  exists message,
    open "0af1" [("id", Num (Js.of_Z 7)); ("uri", Str "http://a.org/")] =
    Throw message.
Proof.
  apply (open_id "0af1"
           [("id", Num (Js.of_Z 7)); ("uri", Str "http://a.org/")]).
  - reflexivity.
  - discriminate.
Defined.

(** X19. What is rendered of a restored view. The persistent projection
    of a view is rendered exactly if the view is, for the same address,
    zoom, focus and visibility; but it carries no command in
    [readyState], and it has lost the mark of the thumbnail. *)
Theorem render_persistent (s : WebView) :
  exists p,
    persistent s = Ok p /\
    match render s, render p with
    | None, None => True
    | Some f, Some g =>
        frame_uri g = frame_uri f /\
        frame_zoom g = frame_zoom f /\
        frame_isFocused g = frame_isFocused f /\
        isVisible g = isVisible f /\
        hidden g = hidden f /\
        className_contentoverflows g = className_contentoverflows f /\
        frame_readyState g = None /\
        className_rendered g = false
    | _, _ => False
    end.
Proof.
  eexists. split; [apply persistent_value|].
  unfold render. cbn [uri thumbnail contentOverflows isActive isSelected
                      zoom isFocused readyState].
  destruct (uri s) as [u|]; [|exact I].
  destruct (String.eqb u ""); [exact I|].
  cbn. repeat split.
Qed.
End Open.

(** ** More on the deck *)

Section MoreDeck.
Import WebViewBox.

Lemma Permutation_filter {A : Type} (f : A -> bool) (l1 l2 : list A) :
  Permutation l1 l2 -> Permutation (List.filter f l1) (List.filter f l2).
Proof.
  induction 1 as [|x l l' P IH|x y l|l l' l'' P1 IH1 P2 IH2]; simpl.
  - constructor.
  - destruct (f x); [constructor|]; exact IH.
  - destruct (f x), (f y); try reflexivity. apply perm_swap.
  - now transitivity (List.filter f l').
Qed.





Lemma filter_children (l : list WebView.WebView) :
  List.map key
    (List.filter
       (fun child => match frame child with Some _ => true | None => false end)
       (List.map (fun webView => {| key := WebView.id webView;
                                    frame := WebView.render webView |}) l)) =
  List.map id (List.filter rendered l).
Proof.
  induction l as [|w l IH]; simpl; [reflexivity|].
  unfold rendered at 1. destruct (WebView.render w); simpl; now rewrite IH.
Qed.

(** X21. Every view of the deck has a child, and a view without an
    address a child without a frame: the mounted frames are those of the
    views that have an address, in the order of their ids. *)
Theorem mounted_are_the_rendered (box : WebViewBox) :
  List.length (children (render box)) = List.length (items box) /\
  mounted (render box) =
    sortBy (fun k => k) (List.map id (List.filter rendered (items box))) /\
  forall webView,
    rendered webView = true <->
    exists u, WebView.uri webView = Some u /\ u <> "".
Proof.
  split; [|split].
  - unfold render. cbn [children]. rewrite List.length_map.
    apply Permutation_length, sortBy_perm.
  - apply sorted_unique.
    + apply mounted_sorted. fold (order (render box)).
      rewrite order_render. apply sorted_map, sortBy_sorted.
    + apply (sortBy_sorted (fun k : string => k)).
    + unfold mounted, render. cbn [children]. rewrite filter_children.
      rewrite (sortBy_perm (fun k : string => k)).
      apply Permutation_map, Permutation_filter, sortBy_perm.
  - intros w. unfold rendered, WebView.render.
    destruct (WebView.uri w) as [u|].
    + destruct (String.eqb u "") eqn:E.
      * apply String.eqb_eq in E. split; [discriminate|].
        intros [u' [[= <-] Hu]]. contradiction.
      * apply String.eqb_neq in E. split; [|reflexivity].
        intros _. exists u. split; [reflexivity | exact E].
    + split; [discriminate|]. intros [u [H _]]. discriminate H.
Qed.
End MoreDeck.

(** ** More on the thumbnail request *)

(** One step of the analysis of a race: reduce, order a maximum, split a
    comparison or the promise of the screenshot. *)
Ltac race_step run :=
  first
    [ progress cbn [Nat.max app]
    | match goal with
      | |- context [Nat.max ?x ?y] =>
          first [rewrite (Nat.max_l x y) by lia
                |rewrite (Nat.max_r x y) by lia
                |destruct (Nat.le_ge_cases x y)]
      end
    | match goal with
      | |- context [Nat.leb ?x ?y] => destruct (Nat.leb_spec x y)
      end
    | match goal with
      | |- context [Promise.fromDOMRequest run ?t] =>
          destruct (Promise.fromDOMRequest run t) as [[? ?]|]
      end ].

Section MoreRequest.
Import Js Promise Thumbnail.

(** The request, from the three promises it starts with and the promise of
    the screenshot. *)
Lemma requestThumbnail_unfold (run : list Turn) :
  requestThumbnail run 0 =
  let abort :=
    match fromEvent run 0 "mozbrowserlocationchange" with
    | Some (t, Fulfilled event) => Some (t, Rejected event)
    | other => other
    end in
  let loaded := fromEvent run 0 "mozbrowserloadend" in
  match fetchThumbnail run 0 with
  | None => (race 0 [abort; None], [])
  | Some (c, Fulfilled blob) => (race 0 [abort; Some (c, Fulfilled blob)], [])
  | Some (c, Rejected _) =>
      match race c [abort; loaded] with
      | None => (race 0 [abort; None], [])
      | Some (t, Fulfilled _) =>
          (race 0 [abort; observe t (fromDOMRequest run t)],
           [(t, GetScreenshot)])
      | Some (t, Rejected reason) =>
          (race 0 [abort; Some (t, Rejected reason)], [])
      end
  end.
Proof.
  unfold requestThumbnail.
  destruct (fromEvent run 0 "mozbrowserlocationchange") as [[a [ea|ra]]|];
    destruct (fromEvent run 0 "mozbrowserloadend") as [[l [el|rl]]|];
    destruct (fetchThumbnail run 0) as [[c [b|r]]|];
    cbv [then_ catch_ bind ret observe race first List.map reject resolve
         fetchScreenshot perform];
    repeat race_step run;
    first [reflexivity | exfalso; lia].
Qed.

Lemma after_gt (run : list Turn) (now : nat)
    (select : Turn -> option Outcome) (t : nat) (o : Outcome) :
  after run now select = Some (t, o) -> now < t.
Proof. unfold after. intros H. apply scan_ge in H. lia. Qed.

Lemma scan_fulfilled (type : string) (rest : list Turn) :
  forall turn t o,
    scan (dispatched type) turn rest = Some (t, o) ->
    exists event, o = Fulfilled event.
Proof.
  induction rest as [|e rest IH]; intros turn t o; simpl; [discriminate|].
  destruct (dispatched type e) as [o'|] eqn:E.
  - intros [= <- <-]. destruct e; simpl in E; try discriminate E.
    destruct (String.eqb type0 type); [|discriminate E].
    injection E as <-. eexists. reflexivity.
  - apply IH.
Qed.

(** The promise of an event is never rejected. *)
Lemma fromEvent_fulfilled (run : list Turn) (now : nat) (type : string)
    (t : nat) (o : Outcome) :
  fromEvent run now type = Some (t, o) -> exists event, o = Fulfilled event.
Proof. apply scan_fulfilled. Qed.

Section MoreCaller.
Variable createObjectURL : Value -> string.

(** The handler of the thumbnail, from what the request gives. *)
Lemma thumbnailChange_unfold (run : list Turn) :
  thumbnailChange createObjectURL run 0 =
  match requestThumbnail run 0 with
  | (Some (t, Fulfilled blob), log) =>
      (Some (t, Fulfilled Undefined),
       log ++ [(t, Edit (fun state =>
                           WebView.set_ "thumbnail"
                             (Str (createObjectURL blob)) state))])
  | (other, log) => (other, log ++ [])
  end.
Proof.
  unfold thumbnailChange.
  destruct (requestThumbnail run 0) as [[[t [blob|reason]]|] log];
    cbv [bind then_ observe onThumbnailChanged perform ret resolve reject];
    cbn [Nat.max app]; rewrite ?Nat.max_id; reflexivity.
Qed.
End MoreCaller.
End MoreRequest.

Section RequestProperties.
Import Js Promise Thumbnail.
Variable createObjectURL : Value -> string.

(** X22. Once the location has changed, the request is over: it settles
    in the turn of the change at the latest, a result it resolves with
    came in an earlier turn, and every effect of the request and of the
    handler of the thumbnail, screenshot or edit, happened in an earlier
    turn. A thumbnail is never stored for a page that was left. *)
Theorem nothing_after_navigation
    (pre : list Turn) (detail : Value) (post : list Turn) :
  quiet [isDomEvent "mozbrowserlocationchange"] pre = true ->
  let run := pre ++ DomEvent "mozbrowserlocationchange" detail :: post in
  let j := S (List.length pre) in
  (exists t o,
     fst (requestThumbnail run 0) = Some (t, o) /\
     t <= j /\
     forall blob, o = Fulfilled blob -> t < j) /\
  forall t e,
    In (t, e) (effects (thumbnailChange createObjectURL run 0)) -> t < j.
Proof.
  intros Hq run j.
  assert (Habort : fromEvent run 0 "mozbrowserlocationchange"
                   = Some (j, Fulfilled
                                (eventObject "mozbrowserlocationchange"
                                   detail))).
  { apply after_hit; [|reflexivity].
    eapply quiet_dispatched; [|exact Hq]. simpl; auto. }
  rewrite thumbnailChange_unfold, requestThumbnail_unfold, Habort.
  cbv zeta.
  destruct (fetchThumbnail run 0) as [[c [b|r]]|];
    destruct (fromEvent run 0 "mozbrowserloadend") as [[l ol]|];
    cbv [race first observe List.map effects fst snd];
    repeat race_step run;
    try (destruct ol);
    cbv [race first observe List.map effects fst snd];
    repeat race_step run;
    repeat match goal with
           | |- context [match ?o with Fulfilled _ => _ | Rejected _ => _ end] =>
               destruct o
           end;
    cbn [fst snd];
    (split;
     [do 2 eexists; split; [reflexivity|]; split; [lia|];
      intros blob Hb; first [discriminate Hb | lia]
     |intros t' e' Hin; simpl in Hin;
      repeat (destruct Hin as [Hin|Hin];
              [injection Hin as <- <-; lia|]);
      contradiction]).
Qed.

(** X23. The screenshot stands in for a tile that is missing. If the tile
    request fails in turn [c] and the load ends in turn [l], in either
    order, one screenshot is asked for, in the later of the two turns;
    if the screenshot request is answered before the location changes,
    the thumbnail request settles with that answer, the image or the
    error. *)
Theorem screenshot_fallback (run : list Turn) (c l k : nat)
    (reason event : Value) (answer : Outcome) :
  fetchThumbnail run 0 = Some (c, Rejected reason) ->
  fromEvent run 0 "mozbrowserloadend" = Some (l, Fulfilled event) ->
  fromDOMRequest run (Nat.max c l) = Some (k, answer) ->
  match fromEvent run 0 "mozbrowserlocationchange" with
  | Some (a, _) => k < a
  | None => True
  end ->
  requestThumbnail run 0 = (Some (k, answer), [(Nat.max c l, GetScreenshot)]).
Proof.
  intros Hf Hl Hs Ha.
  pose proof (after_gt _ _ _ _ _ Hs) as Hk.
  rewrite requestThumbnail_unfold, Hf, Hl. cbv zeta.
  destruct (fromEvent run 0 "mozbrowserlocationchange") as [[a oa]|] eqn:E.
  - destruct (fromEvent_fulfilled _ _ _ _ _ E) as [ev ->].
    cbv [race first observe List.map].
    repeat first
      [ progress cbn [Nat.max app]
      | match goal with
        | |- context [Nat.max ?x ?y] =>
            first [rewrite (Nat.max_l x y) by lia
                  |rewrite (Nat.max_r x y) by lia
                  |destruct (Nat.le_ge_cases x y)]
        end
      | match goal with
        | |- context [Nat.leb ?x ?y] => destruct (Nat.leb_spec x y)
        end
      | rewrite Hs ]; try (exfalso; lia);
    try rewrite (Nat.max_l c l) in Hs by lia;
    try rewrite (Nat.max_r c l) in Hs by lia;
    rewrite ?Hs;
    repeat first
      [ progress cbn [Nat.max app]
      | match goal with
        | |- context [Nat.max ?x ?y] =>
            first [rewrite (Nat.max_l x y) by lia
                  |rewrite (Nat.max_r x y) by lia]
        end
      | match goal with
        | |- context [Nat.leb ?x ?y] => destruct (Nat.leb_spec x y)
        end ];
    first [reflexivity | exfalso; lia].
  - cbv [race first observe List.map].
    destruct (Nat.le_ge_cases c l);
      [rewrite (Nat.max_r c l) in * by lia
      |rewrite (Nat.max_l c l) in * by lia];
      cbn [Nat.max]; rewrite ?Nat.max_id; rewrite ?Hs;
      rewrite ?(Nat.max_r _ k) by lia; reflexivity.
Qed.

Lemma screenshot_fallback_witness :
  requestThumbnail
    [DomEvent "mozbrowserloadend" Undefined;
     XhrLoad 404 "Not Found" Null;
     RequestError (Str "denied");
     DomEvent "mozbrowserlocationchange" (Str "http://b.org/")] 0 =
  (Some (3, Rejected (Str "denied")), [(2, GetScreenshot)]).
Proof.
  apply (screenshot_fallback _ 2 1 3 (Str "Not Found")
           (eventObject "mozbrowserloadend" Undefined)
           (Rejected (Str "denied")));
    try reflexivity.
  simpl. lia.
Defined.

(** X24. A screenshot is asked for at most once, and only as a fallback:
    if one is asked for, the tile request has failed, the load has ended,
    the screenshot is asked for in the later of these two turns, and the
    location has not changed up to that turn. *)
Theorem screenshot_only_as_fallback (run : list Turn) :
  effects (requestThumbnail run 0) = [] \/
  exists c reason l event,
    fetchThumbnail run 0 = Some (c, Rejected reason) /\
    fromEvent run 0 "mozbrowserloadend" = Some (l, Fulfilled event) /\
    effects (requestThumbnail run 0) = [(Nat.max c l, GetScreenshot)] /\
    match fromEvent run 0 "mozbrowserlocationchange" with
    | Some (a, _) => Nat.max c l < a
    | None => True
    end.
Proof.
  rewrite requestThumbnail_unfold. cbv zeta.
  destruct (fetchThumbnail run 0) as [[c [b|r]]|];
    try (left; reflexivity).
  destruct (fromEvent run 0 "mozbrowserloadend") as [[l ol]|] eqn:El;
    [destruct (fromEvent_fulfilled _ _ _ _ _ El) as [el ->]|];
    (destruct (fromEvent run 0 "mozbrowserlocationchange") as [[a oa]|]
       eqn:Ea;
     [destruct (fromEvent_fulfilled _ _ _ _ _ Ea) as [ea ->]|]);
    cbv [race first observe List.map effects snd];
    repeat first
      [ progress cbn [Nat.max app]
      | match goal with
        | |- context [Nat.leb ?x ?y] => destruct (Nat.leb_spec x y)
        end ];
    try (left; reflexivity);
    right; exists c, r, l, el; repeat split; lia.
Qed.

(** X25. When the request never settles. There is no timeout: the request
    stays pending to the end of the run exactly if the location never
    changes and either the tile request is never answered, or it fails
    and then either the load never ends or the screenshot request is
    never answered. *)
Theorem pending_forever (run : list Turn) :
  fst (requestThumbnail run 0) = None <->
  fromEvent run 0 "mozbrowserlocationchange" = None /\
  (fetchThumbnail run 0 = None \/
   exists c reason,
     fetchThumbnail run 0 = Some (c, Rejected reason) /\
     (fromEvent run 0 "mozbrowserloadend" = None \/
      exists l event,
        fromEvent run 0 "mozbrowserloadend" = Some (l, event) /\
        fromDOMRequest run (Nat.max c l) = None)).
Proof.
  rewrite requestThumbnail_unfold. cbv zeta.
  destruct (fromEvent run 0 "mozbrowserlocationchange") as [[a oa]|] eqn:Ea.
  - (* the location changes: the race with [abort] settles *)
    destruct (fromEvent_fulfilled _ _ _ _ _ Ea) as [ea ->].
    assert (R : forall p (log : list (nat * Effect)),
              fst (race 0 [Some (a, Rejected ea); p], log) <> None).
    { intros [[t o]|] log; cbv [race first observe List.map fst];
        cbn [Nat.max]; [destruct (Nat.leb a t)|]; discriminate. }
    split.
    + intros Hnone. exfalso. revert Hnone.
      destruct (fetchThumbnail run 0) as [[c [b|r]]|]; try apply R.
      destruct (race c _) as [[t [v|r']]|]; apply R.
    + intros [Hn _]. discriminate Hn.
  - (* it never changes: the request follows [thumbnail] *)
    assert (R : forall p, race 0 [None; p] = p)
      by (intros [[t o]|]; reflexivity).
    assert (R' : forall c p, race c [None; p] = observe c p)
      by (intros c [[t o]|]; reflexivity).
    destruct (fetchThumbnail run 0) as [[c [b|r]]|].
    + rewrite R. cbn [fst]. split; [discriminate|].
      intros [_ [Hn|[c' [r' [Hn _]]]]]; discriminate Hn.
    + rewrite R'.
      destruct (fromEvent run 0 "mozbrowserloadend") as [[l ol]|] eqn:El.
      * destruct (fromEvent_fulfilled _ _ _ _ _ El) as [el ->].
        cbn [observe]. rewrite R. cbn [fst].
        destruct (fromDOMRequest run (Nat.max c l)) as [[k ok]|] eqn:Es;
          cbn [observe].
        -- split; [discriminate|].
           intros [_ [Hn|[c' [r' [Hn [Hl|[l' [e' [Hl Hs]]]]]]]]];
             try discriminate.
           injection Hn as <- <-. injection Hl as <- <-. congruence.
        -- split; [|reflexivity]. intros _. split; [reflexivity|].
           right. exists c, r. split; [reflexivity|].
           right. exists l, (Fulfilled el). split; [reflexivity | exact Es].
      * cbn [observe]. rewrite R. cbn [fst].
        split; [|reflexivity]. intros _. split; [reflexivity|].
        right. exists c, r. split; [reflexivity|]. left. reflexivity.
    + rewrite R. cbn [fst]. split; [|reflexivity].
      intros _. split; [reflexivity|]. left. reflexivity.
Qed.

(** X26. The thumbnail of the view is edited exactly when the request
    resolves: once, in the turn it resolves, with the URL made of the
    result, and no other field changes. A request that is rejected or
    stays pending edits nothing. *)
Theorem thumbnail_edited_when_resolved (run : list Turn) :
  match fst (requestThumbnail run 0) with
  | Some (t, Fulfilled blob) =>
      exists transition,
        effects (thumbnailChange createObjectURL run 0) =
          effects (requestThumbnail run 0) ++ [(t, Edit transition)] /\
        forall s, exists s',
          transition s = Ok s' /\
          WebView.thumbnail s' = Some (createObjectURL blob) /\
          forall k, k <> "thumbnail" -> WebView.get k s' = WebView.get k s
  | _ =>
      effects (thumbnailChange createObjectURL run 0) =
      effects (requestThumbnail run 0)
  end.
Proof.
  rewrite thumbnailChange_unfold.
  destruct (requestThumbnail run 0) as [[[t [blob|reason]]|] log];
    cbn [fst effects snd]; try apply app_nil_r.
  eexists. split; [reflexivity|].
  intros s.
  assert (E : exists s',
            WebView.set_ "thumbnail" (Str (createObjectURL blob)) s = Ok s' /\
            WebView.thumbnail s' = Some (createObjectURL blob))
    by (destruct s; eexists; split; reflexivity).
  destruct E as [s' [E T]]. exists s'.
  split; [exact E|]. split; [exact T|].
  intros k Hk. rewrite (set_get _ _ _ _ E k).
  apply String.eqb_neq in Hk. now rewrite Hk.
Qed.
End RequestProperties.

Lemma nothing_after_navigation_witness :
  exists t o,
    fst (Thumbnail.requestThumbnail
           ([Promise.XhrLoad 404 "Not Found" Js.Null;
             Promise.DomEvent "mozbrowserloadend" Js.Undefined] ++
            Promise.DomEvent "mozbrowserlocationchange"
              (Js.Str "http://b.org/") ::
            [Promise.RequestSuccess (Js.Str "shot")]) 0) = Some (t, o) /\
    t <= 3 /\
    forall blob, o = Promise.Fulfilled blob -> t < 3.
Proof.
  apply (nothing_after_navigation (fun _ => "blob:1")
           [Promise.XhrLoad 404 "Not Found" Js.Null;
            Promise.DomEvent "mozbrowserloadend" Js.Undefined]
           (Js.Str "http://b.org/")
           [Promise.RequestSuccess (Js.Str "shot")]).
  reflexivity.
Defined.
